(** * Column mapping and projection: excelService.ts and geminiService.ts

    A shallow embedding of the spreadsheet projection [transformData]
    (services/excelService.ts) and of the two inference operations
    [analyzeExcelWithAI] and [generateExcelTemplate]
    (services/geminiService.ts), with the properties the specification
    states about them.

    The source holds two copies of the inference service; the first one,
    which checks for the API key and reports the transport error, is the
    one embedded here.

    Conventions.  A JavaScript string is held as the UTF-8 bytes of its
    text (Rocq's [string]); the braces, quotes and separators the code
    looks for are ASCII, so searching bytes and searching UTF-16 code units
    find the same places.  JavaScript numbers (binary64) are never computed
    with by the modelled code; their type and the few host operations on
    them are parameters of the development. *)

From Stdlib Require Import ZArith Lia Bool Ascii String List.
From stdpp Require Import base option list gmap strings.

Set Warnings "-register-all".

Local Open Scope string_scope.
Local Open Scope Z_scope.

(** ** Module-level helpers that do not depend on the number type *)

(** What reading [record[key]] on a [Record<string, string>] can give: an
    own entry (a string), a member inherited from [Object.prototype]
    (a function or an object, never a string), or [undefined]. *)
Inductive PropValue : Type :=
  | PUndefined
  | PString (s : string)
  | PInherited.

(** The property names every ordinary object inherits from
    [Object.prototype] (ECMA-262, 20.1.3 and Annex B.2.2). *)
Definition Object_prototype_keys : list string :=
  [ "constructor"; "hasOwnProperty"; "isPrototypeOf"; "propertyIsEnumerable";
    "toLocaleString"; "toString"; "valueOf"; "__proto__";
    "__defineGetter__"; "__defineSetter__"; "__lookupGetter__";
    "__lookupSetter__" ].

(** [columnMapping[header]]. *)
Definition Record_get (columnMapping : gmap string string) (header : string)
  : PropValue :=
  match columnMapping !! header with
  | Some s => PString s
  | None =>
      if bool_decide (header ∈ Object_prototype_keys) then PInherited
      else PUndefined
  end.

(** [!v]: [undefined] and the empty string are falsy, every object and
    every other string is truthy. *)
Definition falsy (v : PropValue) : bool :=
  match v with
  | PUndefined => true
  | PString s => bool_decide (s = "")
  | PInherited => false
  end.

(** [Array.prototype.indexOf] on an array of strings: strict equality,
    first match, [-1] when there is none. *)
Fixpoint indexOf_from (hs : list string) (s : string) (i : Z) : Z :=
  match hs with
  | [] => -1
  | h :: hs' => if bool_decide (h = s) then i else indexOf_from hs' s (i + 1)
  end.

Definition indexOf (hs : list string) (v : PropValue) : Z :=
  match v with
  | PString s => indexOf_from hs s 0
  | PUndefined | PInherited => -1
  end.

(** The identity ColumnMapping over a header list: [{n: n}] for each name. *)
Definition identity_mapping (hs : list string) : gmap string string :=
  list_to_map ((fun h => (h, h)) <$> hs).

(** ** The table model and the projection engine *)

Section Table.

(** JavaScript's Number type. *)
Variable number : Type.

(** A cell as it is found at run time: the declared
    [string | number | null], and [undefined], which reading past the end
    of a row produces. *)
Inductive Cell : Type :=
  | CUndefined
  | CNull
  | CStr (s : string)
  | CNum (n : number).

(** [interface ExcelData]. *)
Record ExcelData : Type := mkExcelData {
  headers : list string;
  rows : list (list Cell);
  sheetName : string;
}.

(** [row[i]] for an integer [i]: [undefined] out of range. *)
Definition row_at (row : list Cell) (i : Z) : Cell :=
  if i <? 0 then CUndefined
  else default CUndefined (row !! Z.to_nat i).

(** The callback of the inner [outputHeaders.map]. *)
Definition transform_cell (data : ExcelData)
    (columnMapping : gmap string string) (row : list Cell) (header : string)
  : Cell :=
  let sourceHeader := Record_get columnMapping header in
  if falsy sourceHeader then CNull
  else
    let sourceIndex := indexOf (headers data) sourceHeader in
    if 0 <=? sourceIndex then row_at row sourceIndex else CNull.

(** [transformData]. *)
Definition transformData (data : ExcelData)
    (columnMapping : gmap string string) (outputHeaders : list string)
  : ExcelData :=
  let transformedRows :=
    map (fun row => map (transform_cell data columnMapping row) outputHeaders)
        (rows data) in
  {| headers := outputHeaders;
     rows := transformedRows;
     sheetName := sheetName data |}.

(** Cell [(i, j)] of a table, when row [i] exists and has a column [j]. *)
Definition cell (t : ExcelData) (i j : nat) : option Cell :=
  rows t !! i ≫= fun r => r !! j.

(** The projection as the specification words it (section 4.3): an absent
    mapping entry gives null, otherwise the first header equal to the mapped
    name is looked up; none gives null, and one at index [k] gives the source
    row's value there, or null when the row is too short. *)
Definition project_cell_as_specified (data : ExcelData)
    (mapping : gmap string string) (row : list Cell) (name : string) : Cell :=
  match mapping !! name with
  | None => CNull
  | Some src =>
      match list_find (fun h => h = src) (headers data) with
      | None => CNull
      | Some (k, _) => default CNull (row !! k)
      end
  end.

Definition project_as_specified (data : ExcelData)
    (mapping : gmap string string) (outputHeaders : list string)
  : list (list Cell) :=
  map (fun row => map (project_cell_as_specified data mapping row) outputHeaders)
      (rows data).

End Table.

Arguments CUndefined {number}.
Arguments CNull {number}.
Arguments CStr {number} s.
Arguments CNum {number} n.
Arguments mkExcelData {number}.
Arguments headers {number} e.
Arguments rows {number} e.
Arguments sheetName {number} e.
Arguments row_at {number}.
Arguments transform_cell {number}.
Arguments transformData {number}.
Arguments cell {number}.
Arguments project_cell_as_specified {number}.
Arguments project_as_specified {number}.

(** ** Strings: joining, slicing and the regular expression *)

(** [Array.prototype.join] on an array whose elements are already strings. *)
Fixpoint join (sep : string) (parts : list string) : string :=
  match parts with
  | [] => ""
  | [p] => p
  | p :: ps => p ++ sep ++ join sep ps
  end.

(** [Array.prototype.slice(start, end)] for the non-negative bounds the code
    passes: the elements at indices [start <= i < end], fewer when the array
    is shorter. *)
Definition slice {A} (start end_ : nat) (l : list A) : list A :=
  take (end_ - start) (drop start l).

(** The tail [[\s\S]*\}] of the pattern, tried at the front of [s], with
    the greedy star of a backtracking matcher: the star first takes the next
    character and the rest is tried; only when that fails must the
    character at hand be the closing brace.  Returns the matched text. *)
Fixpoint star_any_then_close (s : string) : option string :=
  match s with
  | EmptyString => None
  | String c rest =>
      match star_any_then_close rest with
      | Some m => Some (String c m)
      | None => if Ascii.eqb c "}" then Some (String c EmptyString) else None
      end
  end.

(** The whole pattern [/\{[\s\S]*\}/] tried at the front of [s]. *)
Definition regex_match_here (s : string) : option string :=
  match s with
  | String c rest =>
      if Ascii.eqb c "{" then String c <$> star_any_then_close rest else None
  | EmptyString => None
  end.

(** [text.match(/\{[\s\S]*\}/)]: the start positions are tried from left to
    right and the first match wins; [jsonMatch[0]] is the text returned,
    [None] is JavaScript's [null]. *)
Fixpoint String_match (text : string) : option string :=
  match regex_match_here text with
  | Some m => Some m
  | None =>
      match text with
      | EmptyString => None
      | String _ rest => String_match rest
      end
  end.

(** The extraction as the specification words it: the span from the
    leftmost opening brace to the rightmost closing brace. *)
Fixpoint index_of_first (c : ascii) (s : string) : option nat :=
  match s with
  | EmptyString => None
  | String d rest =>
      if Ascii.eqb d c then Some O else S <$> index_of_first c rest
  end.

Fixpoint index_of_last (c : ascii) (s : string) : option nat :=
  match s with
  | EmptyString => None
  | String d rest =>
      match index_of_last c rest with
      | Some k => Some (S k)
      | None => if Ascii.eqb d c then Some O else None
      end
  end.

Definition leftmost_to_rightmost (text : string) : option string :=
  match index_of_first "{" text, index_of_last "}" text with
  | Some i, Some j =>
      if (i <? j)%nat then Some (substring i (S j - i) text) else None
  | _, _ => None
  end.

(** ** JSON values and [JSON.parse] *)

(** A value decoded from JSON.  An object keeps its own properties in
    creation order, each key once. *)
Inductive json (number : Type) : Type :=
  | JNull
  | JBool (b : bool)
  | JNumber (n : number)
  | JString (s : string)
  | JArray (elements : list (json number))
  | JObject (members : list (string * json number)).

Arguments JNull {number}.
Arguments JBool {number} b.
Arguments JNumber {number} n.
Arguments JString {number} s.
Arguments JArray {number} elements.
Arguments JObject {number} members.

(** Outcome of a parsing function run with a bound on its recursion. *)
Inductive parsed (A : Type) : Type :=
  | Parsed (a : A) (rest : string)
  | SyntaxError
  | OutOfFuel.

Arguments Parsed {A} a rest.
Arguments SyntaxError {A}.
Arguments OutOfFuel {A}.

Definition is_ws (c : ascii) : bool :=
  Ascii.eqb c " " || Ascii.eqb c "009" || Ascii.eqb c "010" || Ascii.eqb c "013".

Fixpoint skip_ws (s : string) : string :=
  match s with
  | String c rest => if is_ws c then skip_ws rest else s
  | EmptyString => s
  end.

Definition is_digit (c : ascii) : bool :=
  let n := nat_of_ascii c in (48 <=? n)%nat && (n <=? 57)%nat.

Definition hex_value (c : ascii) : option N :=
  let n := N_of_ascii c in
  if ((48 <=? n) && (n <=? 57))%N then Some (n - 48)%N
  else if ((65 <=? n) && (n <=? 70))%N then Some (n - 55)%N
  else if ((97 <=? n) && (n <=? 102))%N then Some (n - 87)%N
  else None.

Definition hex4 (a b c d : ascii) : option N :=
  x ← hex_value a; y ← hex_value b; z ← hex_value c; w ← hex_value d;
  Some (((x * 16 + y) * 16 + z) * 16 + w)%N.

Definition byte (n : N) : ascii := ascii_of_N n.

(** The UTF-8 bytes of a code point; a surrogate code point that stands
    alone is written with the same three-byte pattern. *)
Definition utf8 (cp : N) : string :=
  if (cp <? 128)%N then String (byte cp) ""
  else if (cp <? 2048)%N then
    String (byte (192 + cp / 64)) (String (byte (128 + cp mod 64)) "")
  else if (cp <? 65536)%N then
    String (byte (224 + cp / 4096))
      (String (byte (128 + (cp / 64) mod 64))
         (String (byte (128 + cp mod 64)) ""))
  else
    String (byte (240 + cp / 262144))
      (String (byte (128 + (cp / 4096) mod 64))
         (String (byte (128 + (cp / 64) mod 64))
            (String (byte (128 + cp mod 64)) ""))).

Definition is_high_surrogate (u : N) : bool := ((55296 <=? u) && (u <=? 56319))%N.
Definition is_low_surrogate (u : N) : bool := ((56320 <=? u) && (u <=? 57343))%N.

(** A [\u] escape whose code unit is [u], followed by [rest]: a high
    surrogate directly followed by an escaped low surrogate makes one code
    point.  Returns the bytes and how the rest continues. *)
Definition escaped_unit (u : N) (rest : string) : string * bool :=
  match rest with
  | String b (String v (String a1 (String a2 (String a3 (String a4 _))))) =>
      if Ascii.eqb b "\" && Ascii.eqb v "u" then
        match hex4 a1 a2 a3 a4 with
        | Some l =>
            if is_high_surrogate u && is_low_surrogate l
            then (utf8 (65536 + (u - 55296) * 1024 + (l - 56320))%N, true)
            else (utf8 u, false)
        | None => (utf8 u, false)
        end
      else (utf8 u, false)
  | _ => (utf8 u, false)
  end.

(** One simple escape character after a backslash. *)
Definition simple_escape (c : ascii) : option ascii :=
  if Ascii.eqb c "034" then Some "034"%char
  else if Ascii.eqb c "\" then Some "\"%char
  else if Ascii.eqb c "/" then Some "/"%char
  else if Ascii.eqb c "b" then Some "008"%char
  else if Ascii.eqb c "f" then Some "012"%char
  else if Ascii.eqb c "n" then Some "010"%char
  else if Ascii.eqb c "r" then Some "013"%char
  else if Ascii.eqb c "t" then Some "009"%char
  else None.

(** The characters of a JSON string after its opening quote, up to and
    including the closing quote: the decoded text and what follows. *)
Fixpoint parse_string_body (s : string) : option (string * string) :=
  match s with
  | EmptyString => None
  | String c rest =>
      if Ascii.eqb c "034" then Some ("", rest)
      else if (nat_of_ascii c <? 32)%nat then None
      else if Ascii.eqb c "\" then
        match rest with
        | String e rest1 =>
            if Ascii.eqb e "u" then
              match rest1 with
              | String a1 (String a2 (String a3 (String a4 rest2))) =>
                  match hex4 a1 a2 a3 a4 with
                  | Some u =>
                      match escaped_unit u rest2, rest2 with
                      | (bytes, true),
                        String _ (String _ (String _ (String _
                          (String _ (String _ rest3))))) =>
                          '(str, r) ← parse_string_body rest3;
                          Some (bytes ++ str, r)
                      | (bytes, _), _ =>
                          '(str, r) ← parse_string_body rest2;
                          Some (bytes ++ str, r)
                      end
                  | None => None
                  end
              | _ => None
              end
            else
              match simple_escape e with
              | Some d =>
                  '(str, r) ← parse_string_body rest1;
                  Some (String d str, r)
              | None => None
              end
        | EmptyString => None
        end
      else
        '(str, r) ← parse_string_body rest;
        Some (String c str, r)
  end.

(** The longest run of decimal digits at the front of [s], and the rest. *)
Fixpoint digits (s : string) : string * string :=
  match s with
  | String c rest =>
      if is_digit c then let '(ds, r) := digits rest in (String c ds, r)
      else ("", s)
  | EmptyString => ("", s)
  end.

(** The text of a JSON number at the front of [s]: an optional minus sign,
    an integer part (a single 0, or a digit from 1 to 9 and any digits),
    an optional fraction (a point and at least one digit) and an optional
    exponent (e or E, an optional sign, at least one digit). *)
Definition number_int (s : string) : option (string * string) :=
  match s with
  | String c rest =>
      if Ascii.eqb c "0" then Some ("0", rest)
      else if is_digit c then
        let '(ds, r) := digits rest in Some (String c ds, r)
      else None
  | EmptyString => None
  end.

Definition number_frac (s : string) : option (string * string) :=
  match s with
  | String c rest =>
      if Ascii.eqb c "." then
        match digits rest with
        | (EmptyString, _) => None
        | (ds, r) => Some (String c ds, r)
        end
      else Some ("", s)
  | EmptyString => Some ("", s)
  end.

Definition number_exp (s : string) : option (string * string) :=
  match s with
  | String c rest =>
      if Ascii.eqb c "e" || Ascii.eqb c "E" then
        let '(sign, rest1) :=
          match rest with
          | String g rest' =>
              if Ascii.eqb g "+" || Ascii.eqb g "-"
              then (String g "", rest') else ("", rest)
          | EmptyString => ("", rest)
          end in
        match digits rest1 with
        | (EmptyString, _) => None
        | (ds, r) => Some (String c (sign ++ ds), r)
        end
      else Some ("", s)
  | EmptyString => Some ("", s)
  end.

Definition number_text (s : string) : option (string * string) :=
  let '(minus, s0) :=
    match s with
    | String c rest => if Ascii.eqb c "-" then ("-", rest) else ("", s)
    | EmptyString => ("", s)
    end in
  '(i, s1) ← number_int s0;
  '(f, s2) ← number_frac s1;
  '(e, s3) ← number_exp s2;
  Some (minus ++ i ++ f ++ e, s3).

(** [s] without the prefix [p], when it starts with it. *)
Fixpoint strip_prefix (p s : string) : option string :=
  match p, s with
  | EmptyString, _ => Some s
  | String a p', String b s' => if Ascii.eqb a b then strip_prefix p' s' else None
  | String _ _, EmptyString => None
  end.

(** Defining a property on an object under construction: a key met again
    keeps its place and takes the new value. *)
Fixpoint obj_set {number} (members : list (string * json number))
    (k : string) (v : json number) : list (string * json number) :=
  match members with
  | [] => [(k, v)]
  | (k', v') :: ms =>
      if bool_decide (k' = k) then (k, v) :: ms else (k', v') :: obj_set ms k v
  end.

Section JsonParse.

Context {number : Type}.

(** The Number a JSON numeric literal denotes. *)
Variable StringToNumber : string -> number.

(** Recursive descent over the JSON grammar.  [parse_value] reads one value
    after optional white space; [parse_elements] reads the rest of an array
    after its opening bracket, [parse_members] the rest of an object, both
    knowing that the array or object is not empty.  [fuel] bounds the depth
    of the calls. *)
Fixpoint parse_value (fuel : nat) (s : string) : parsed (json number) :=
  match fuel with
  | O => OutOfFuel
  | S fuel' =>
      match skip_ws s with
      | EmptyString => SyntaxError
      | String c rest as s0 =>
          if Ascii.eqb c "{" then
            match skip_ws rest with
            | String d rest' as r =>
                if Ascii.eqb d "}" then Parsed (JObject []) rest'
                else parse_members fuel' r []
            | EmptyString => SyntaxError
            end
          else if Ascii.eqb c "[" then
            match skip_ws rest with
            | String d rest' as r =>
                if Ascii.eqb d "]" then Parsed (JArray []) rest'
                else parse_elements fuel' r []
            | EmptyString => SyntaxError
            end
          else if Ascii.eqb c "034" then
            match parse_string_body rest with
            | Some (str, r) => Parsed (JString str) r
            | None => SyntaxError
            end
          else if Ascii.eqb c "t" then
            match strip_prefix "true" s0 with
            | Some r => Parsed (JBool true) r
            | None => SyntaxError
            end
          else if Ascii.eqb c "f" then
            match strip_prefix "false" s0 with
            | Some r => Parsed (JBool false) r
            | None => SyntaxError
            end
          else if Ascii.eqb c "n" then
            match strip_prefix "null" s0 with
            | Some r => Parsed JNull r
            | None => SyntaxError
            end
          else
            match number_text s0 with
            | Some (lexeme, r) => Parsed (JNumber (StringToNumber lexeme)) r
            | None => SyntaxError
            end
      end
  end
with parse_elements (fuel : nat) (s : string) (acc : list (json number))
  : parsed (json number) :=
  match fuel with
  | O => OutOfFuel
  | S fuel' =>
      match parse_value fuel' s with
      | Parsed v r =>
          match skip_ws r with
          | String c rest =>
              if Ascii.eqb c "," then parse_elements fuel' rest (acc ++ [v])
              else if Ascii.eqb c "]" then Parsed (JArray (acc ++ [v])) rest
              else SyntaxError
          | EmptyString => SyntaxError
          end
      | SyntaxError => SyntaxError
      | OutOfFuel => OutOfFuel
      end
  end
with parse_members (fuel : nat) (s : string)
    (acc : list (string * json number)) : parsed (json number) :=
  match fuel with
  | O => OutOfFuel
  | S fuel' =>
      match skip_ws s with
      | String q rest =>
          if Ascii.eqb q "034" then
            match parse_string_body rest with
            | Some (k, r1) =>
                match skip_ws r1 with
                | String c r2 =>
                    if Ascii.eqb c ":" then
                      match parse_value fuel' r2 with
                      | Parsed v r3 =>
                          match skip_ws r3 with
                          | String d r4 =>
                              if Ascii.eqb d "," then
                                parse_members fuel' r4 (obj_set acc k v)
                              else if Ascii.eqb d "}" then
                                Parsed (JObject (obj_set acc k v)) r4
                              else SyntaxError
                          | EmptyString => SyntaxError
                          end
                      | SyntaxError => SyntaxError
                      | OutOfFuel => OutOfFuel
                      end
                    else SyntaxError
                | EmptyString => SyntaxError
                end
            | None => SyntaxError
            end
          else SyntaxError
      | EmptyString => SyntaxError
      end
  end.

(** A parsing outcome that did not stop at the bound and, when it read
    something, left less than the text [s] it started from. *)
Definition consumes {A} (s : string) (r : parsed A) : Prop :=
  match r with
  | Parsed _ rest => (String.length rest < String.length s)%nat
  | SyntaxError => True
  | OutOfFuel => False
  end.

(** [JSON.parse(text)]: one value, then only white space; [None] stands for
    the [SyntaxError] it throws otherwise.  The fuel covers every text (see
    [parse_value_fuel]). *)
Definition JSON_parse (text : string) : option (json number) :=
  match parse_value (2 * String.length text + 2) text with
  | Parsed v rest =>
      match skip_ws rest with
      | EmptyString => Some v
      | String _ _ => None
      end
  | SyntaxError | OutOfFuel => None
  end.

End JsonParse.

(** ** Exceptions, completions and the host *)

(** A thrown value, as the handlers of the code can tell them apart: an
    instance of [Error] with its message, or anything else. *)
Inductive thrown : Type :=
  | ErrorObject (message : string)
  | NotAnError.

(** How an evaluation or an awaited promise ends. *)
Inductive completion (A : Type) : Type :=
  | Normal (a : A)
  | Throw (e : thrown).

Arguments Normal {A} a.
Arguments Throw {A} e.

(** The errors the engine itself raises in the modelled code: the two
    TypeErrors of a property read on [undefined] or [null] and of a call of
    something that is no function, and the SyntaxError of [JSON.parse]. *)
Inductive EngineError : Type :=
  | CannotReadProperty (of_null : bool) (name : string)
  | NotAFunction (callee : string)
  | InvalidJson (source : string).

(** What the development takes from the JavaScript engine without defining
    it: the Number type with its truthiness, its conversion from a JSON
    literal and to a string; the conversion of an array or object to a
    string (which runs [toString] and can throw); the wording of the
    engine's own errors. *)
Class Host : Type := mkHost {
  number : Type;
  number_truthy : number -> bool;
  StringToNumber : string -> number;
  Number_toString : number -> string;
  Object_ToString : json number -> completion string;
  engine_message : EngineError -> string;
}.

(** The property names the code reads from decoded values.  None of them
    is a member of [Object.prototype], [Array.prototype] or
    [String.prototype], so only own properties answer. *)
Inductive Key : Type :=
  | K_candidates | K_content | K_parts | K_text | K_error | K_message
  | K_index0.

Definition key_string (k : Key) : string :=
  match k with
  | K_candidates => "candidates"
  | K_content => "content"
  | K_parts => "parts"
  | K_text => "text"
  | K_error => "error"
  | K_message => "message"
  | K_index0 => "0"
  end.

Fixpoint obj_get {number} (members : list (string * json number)) (k : string)
  : option (json number) :=
  match members with
  | [] => None
  | (k', v) :: ms => if bool_decide (k' = k) then Some v else obj_get ms k
  end.

(** The first UTF-16 code unit of a text, as a one-unit string: the first
    character, or the high surrogate of a character outside the basic
    plane. *)
Definition first_code_unit (s : string) : option string :=
  match s with
  | EmptyString => None
  | String c0 rest =>
      let n0 := N_of_ascii c0 in
      if (n0 <? 192)%N then Some (String c0 "")
      else
        match rest with
        | String c1 rest1 =>
            if (n0 <? 224)%N then Some (String c0 (String c1 ""))
            else
              match rest1 with
              | String c2 rest2 =>
                  if (n0 <? 240)%N
                  then Some (String c0 (String c1 (String c2 "")))
                  else
                    let cp := ((n0 mod 8) * 262144
                               + (N_of_ascii c1 mod 64) * 4096
                               + (N_of_ascii c2 mod 64) * 64
                               + match rest2 with
                                 | String c3 _ => N_of_ascii c3 mod 64
                                 | EmptyString => 0
                                 end)%N in
                    Some (utf8 (55296 + (cp - 65536) / 1024)%N)
              | EmptyString => Some (String c0 (String c1 ""))
              end
        | EmptyString => Some (String c0 "")
        end
  end.

(** The own property [k] of a decoded value that is not [null]. *)
Definition own_property {number} (v : json number) (k : Key)
  : option (json number) :=
  match v with
  | JObject members => obj_get members (key_string k)
  | JArray elements =>
      match k with K_index0 => elements !! 0%nat | _ => None end
  | JString s =>
      match k with K_index0 => JString <$> first_code_unit s | _ => None end
  | JNull | JBool _ | JNumber _ => None
  end.

Section Values.

Context `{Host}.

(** A run-time value: a decoded value, or [None] for [undefined]. *)
Definition value : Type := option (json number).

(** [base.k]: a TypeError on [undefined] and [null]. *)
Definition Get (base : value) (k : Key) : completion value :=
  match base with
  | None => Throw (ErrorObject (engine_message (CannotReadProperty false (key_string k))))
  | Some JNull => Throw (ErrorObject (engine_message (CannotReadProperty true (key_string k))))
  | Some v => Normal (own_property v k)
  end.

(** [base?.k]: [undefined] on [undefined] and [null]. *)
Definition GetOptional (base : value) (k : Key) : value :=
  match base with
  | None | Some JNull => None
  | Some v => own_property v k
  end.

(** ToBoolean. *)
Definition truthy (v : value) : bool :=
  match v with
  | None | Some JNull => false
  | Some (JBool b) => b
  | Some (JNumber n) => number_truthy n
  | Some (JString s) => negb (bool_decide (s = ""))
  | Some (JArray _) | Some (JObject _) => true
  end.

(** [a || b]. *)
Definition or_else (a b : value) : value := if truthy a then a else b.

(** The conversion a template literal applies to a substitution. *)
Definition ToString (v : value) : completion string :=
  match v with
  | None => Normal "undefined"
  | Some JNull => Normal "null"
  | Some (JBool true) => Normal "true"
  | Some (JBool false) => Normal "false"
  | Some (JNumber n) => Normal (Number_toString n)
  | Some (JString s) => Normal s
  | Some (JArray _ as o) | Some (JObject _ as o) => Object_ToString o
  end.

(** What [Array.prototype.join] writes for one cell. *)
Definition cell_text (c : Cell number) : string :=
  match c with
  | CUndefined | CNull => ""
  | CStr s => s
  | CNum n => Number_toString n
  end.

End Values.

(** ** Effects: the console, the network and the configuration *)

(** The arguments of one [fetch] call: the URL, the method, the
    [Content-Type] header and the members of the JSON body
    [{contents: [{parts: [{text}]}], generationConfig: {temperature,
    maxOutputTokens}}]. *)
Record Request : Type := mkRequest {
  url : string;
  method : string;
  content_type : string;
  text : string;
  temperature : string;
  maxOutputTokens : Z;
}.

Inductive Event : Type :=
  | ConsoleLog (label : string)
  | ConsoleError (label : string)
  | Fetch (request : Request).

Definition is_fetch (e : Event) : bool :=
  match e with Fetch _ => true | _ => false end.

Section Effects.

Context `{Host}.

(** What the code uses of a [Response]: [ok], [statusText] and what
    [await response.json()] gives. *)
Record Response : Type := mkResponse {
  ok : bool;
  statusText : string;
  json_body : completion (json number);
}.

(** The environment of a call: the key read from
    [import.meta.env.VITE_GEMINI_API_KEY] ([None] when it is not set), and
    how [await fetch(...)] ends for each request. *)
Record World : Type := mkWorld {
  GEMINI_API_KEY : option string;
  network : Request -> completion Response;
}.

(** A computation that adds to the list of events and ends normally or by
    throwing. *)
Definition Eff (A : Type) : Type := list Event -> list Event * completion A.

#[global] Instance Eff_ret : MRet Eff := fun A a log => (log, Normal a).

#[global] Instance Eff_bind : MBind Eff := fun A B f m log =>
  match m log with
  | (log', Normal a) => f a log'
  | (log', Throw e) => (log', Throw e)
  end.

Definition emit (e : Event) : Eff () := fun log => ((log ++ [e])%list, Normal ()).

Definition lift {A} (c : completion A) : Eff A := fun log => (log, c).

Definition throw {A} (e : thrown) : Eff A := lift (Throw e).

(** [try { body } catch (error) { handler }]. *)
Definition try_catch {A} (body : Eff A) (handler : thrown -> Eff A) : Eff A :=
  fun log =>
    match body log with
    | (log', Normal a) => (log', Normal a)
    | (log', Throw e) => handler e log'
    end.

Definition console_log (label : string) : Eff () := emit (ConsoleLog label).
Definition console_error (label : string) : Eff () := emit (ConsoleError label).

(** [await fetch(url, init)]. *)
Definition fetch (w : World) (request : Request) : Eff Response :=
  fun log => ((log ++ [Fetch request])%list, network w request).

(** How the promise of an [async] function settles. *)
Inductive Settled : Type :=
  | Resolved (v : json number)
  | Rejected (e : thrown).

(** Calling an [async] function: its events and its settlement. *)
Definition call (body : Eff (json number)) : list Event * Settled :=
  match body [] with
  | (log, Normal v) => (log, Resolved v)
  | (log, Throw e) => (log, Rejected e)
  end.

(** [!GEMINI_API_KEY]. *)
Definition key_missing (key : option string) : bool :=
  match key with
  | None => true
  | Some k => bool_decide (k = "")
  end.

(** [${GEMINI_API_KEY}] inside the URL. *)
Definition key_text (key : option string) : string :=
  match key with
  | None => "undefined"
  | Some k => k
  end.

Definition quote : string := String "034" "".
Definition newline : string := String "010" "".

(** The object literal [{ columnMapping: {}, suggestions: [message] }]. *)
Definition degraded (message : string) : json number :=
  JObject [("columnMapping", JObject []); ("suggestions", JArray [JString message])].

(** The object literal [{ headers: [], sampleRow: [] }]. *)
Definition empty_template : json number :=
  JObject [("headers", JArray []); ("sampleRow", JArray [])].

(** The rows of the sample block: [sampleData.slice(0, 3).map((row) =>
    row.join(' | ')).join('\n')]. *)
Definition sample_block (sampleData : list (list (Cell number))) : string :=
  join newline ((fun row => join " | " (cell_text <$> row)) <$> slice 0 3 sampleData).

(** The template literal [prompt] of [analyzeExcelWithAI], cut at its three
    substitutions. *)
Definition analyze_prompt_head : string := "
엑셀 데이터를 분석해주세요.

현재 헤더: ".

Definition analyze_prompt_sample : string := "
샘플 데이터 (처음 3행):
".

Definition analyze_prompt_target : string := "

목표 서식: ".

Definition analyze_prompt_tail : string :=
  "

다음 형식의 JSON으로 응답해주세요:
{
  " ++ quote ++ "columnMapping" ++ quote ++ ": {
    " ++ quote ++ "목표컬럼명1" ++ quote ++ ": " ++ quote ++ "현재컬럼명1" ++ quote ++ ",
    " ++ quote ++ "목표컬럼명2" ++ quote ++ ": " ++ quote ++ "현재컬럼명2" ++ quote ++ "
  },
  " ++ quote ++ "suggestions" ++ quote ++ ": [" ++ quote ++ "제안1" ++ quote ++ ", " ++ quote ++ "제안2" ++ quote ++ "]
}

컬럼 매핑과 데이터 변환에 대한 제안을 포함해주세요.
".

Definition analyze_prompt (headers : list string)
    (sampleData : list (list (Cell number))) (targetFormat : string) : string :=
  analyze_prompt_head ++ join ", " headers
  ++ analyze_prompt_sample ++ sample_block sampleData
  ++ analyze_prompt_target ++ targetFormat
  ++ analyze_prompt_tail.

Definition template_prompt (description : string) : string :=
  "
사용자가 원하는 엑셀 서식을 생성해주세요.

요청: " ++ description ++ "

다음 형식의 JSON으로 응답해주세요:
{
  " ++ quote ++ "headers" ++ quote ++ ": [" ++ quote ++ "컬럼1" ++ quote ++ ", " ++ quote ++ "컬럼2" ++ quote ++ ", " ++ quote ++ "컬럼3" ++ quote ++ "],
  " ++ quote ++ "sampleRow" ++ quote ++ ": [" ++ quote ++ "샘플값1" ++ quote ++ ", " ++ quote ++ "샘플값2" ++ quote ++ ", " ++ quote ++ "샘플값3" ++ quote ++ "]
}

실무에서 자주 사용되는 적절한 컬럼명과 샘플 데이터를 포함해주세요.
".

Definition endpoint : string :=
  "https://generativelanguage.googleapis.com/v1beta/models/gemini-2.0-flash:generateContent?key=".

Definition analyze_request (w : World) (prompt : string) : Request :=
  {| url := endpoint ++ key_text (GEMINI_API_KEY w);
     method := "POST";
     content_type := "application/json";
     text := prompt;
     temperature := "0.3";
     maxOutputTokens := 2048 |}.

Definition template_request (w : World) (prompt : string) : Request :=
  {| url := endpoint ++ key_text (GEMINI_API_KEY w);
     method := "POST";
     content_type := "application/json";
     text := prompt;
     temperature := "0.5";
     maxOutputTokens := 1024 |}.

End Effects.

(** ** The two inference operations *)

Section Operations.

Context `{Host}.

(** [text.match(/\{[\s\S]*\}/)] on a truthy value: only a string has a
    [match] method. *)
Definition value_match (text : value) : completion (option string) :=
  match text with
  | Some (JString s) => Normal (String_match s)
  | _ => Throw (ErrorObject (engine_message (NotAFunction "text.match")))
  end.

(** [data.candidates?.[0]?.content?.parts?.[0]?.text || ''] of
    [analyzeExcelWithAI]. *)
Definition analyze_text (data : json number) : completion value :=
  match Get (Some data) K_candidates with
  | Normal candidates =>
      let first := GetOptional candidates K_index0 in
      let content := GetOptional first K_content in
      let parts := GetOptional content K_parts in
      let part := GetOptional parts K_index0 in
      Normal (or_else (GetOptional part K_text) (Some (JString "")))
  | Throw e => Throw e
  end.

(** [data.candidates[0]?.content?.parts[0]?.text || ''] of
    [generateExcelTemplate]: the two index reads are not optional, and an
    optional link that meets [undefined] or [null] ends the whole chain. *)
Definition template_text (data : json number) : completion value :=
  match Get (Some data) K_candidates with
  | Normal candidates =>
      match Get candidates K_index0 with
      | Normal first =>
          match first with
          | None | Some JNull => Normal (Some (JString ""))
          | Some _ =>
              match GetOptional first K_content with
              | None | Some JNull => Normal (Some (JString ""))
              | Some _ as content =>
                  match Get content K_parts with
                  | Normal parts =>
                      match Get parts K_index0 with
                      | Normal part =>
                          Normal (or_else (GetOptional part K_text)
                                          (Some (JString "")))
                      | Throw e => Throw e
                      end
                  | Throw e => Throw e
                  end
              end
          end
      | Throw e => Throw e
      end
  | Throw e => Throw e
  end.

(** [error instanceof Error ? error.message : '알 수 없는 오류']. *)
Definition error_text (error : thrown) : string :=
  match error with
  | ErrorObject message => message
  | NotAnError => "알 수 없는 오류"
  end.

(** The body of [analyzeExcelWithAI]. *)
Definition analyzeExcelWithAI_body (w : World) (headers : list string)
    (sampleData : list (list (Cell number))) (targetFormat : string)
  : Eff (json number) :=
  if key_missing (GEMINI_API_KEY w) then
    console_error "GEMINI API KEY가 설정되지 않았습니다.";;
    mret (degraded "API 키가 설정되지 않았습니다.")
  else
    let prompt := analyze_prompt headers sampleData targetFormat in
    try_catch
      (console_log "Gemini API 호출 시작...";;
       response ← fetch w (analyze_request w prompt);
       data ← lift (json_body response);
       console_log "Gemini API 응답:";;
       if negb (ok response) then
         console_error "API 응답 오류:";;
         error ← lift (Get (Some data) K_error);
         detail ← lift (ToString (or_else (GetOptional error K_message)
                                          (Some (JString (statusText response)))));
         mret (degraded ("API 오류: " ++ detail))
       else
         text ← lift (analyze_text data);
         if negb (truthy text) then
           mret (degraded "AI 응답이 비어있습니다.")
         else
           jsonMatch ← lift (value_match text);
           match jsonMatch with
           | Some matched =>
               try_catch
                 (match JSON_parse StringToNumber matched with
                  | Some v => mret v
                  | None => throw (ErrorObject (engine_message (InvalidJson matched)))
                  end)
                 (fun parseError =>
                    console_error "JSON 파싱 오류:";;
                    mret (degraded "AI 응답을 파싱할 수 없습니다."))
           | None => mret (degraded "AI 응답을 파싱할 수 없습니다.")
           end)
      (fun error =>
         console_error "AI 분석 오류:";;
         mret (degraded ("AI 분석 중 오류: " ++ error_text error))).

Definition analyzeExcelWithAI (w : World) (headers : list string)
    (sampleData : list (list (Cell number))) (targetFormat : string)
  : list Event * Settled :=
  call (analyzeExcelWithAI_body w headers sampleData targetFormat).

(** The body of [generateExcelTemplate]. *)
Definition generateExcelTemplate_body (w : World) (description : string)
  : Eff (json number) :=
  let prompt := template_prompt description in
  try_catch
    (response ← fetch w (template_request w prompt);
     if negb (ok response) then
       throw (ErrorObject "템플릿 생성 요청 실패")
     else
       data ← lift (json_body response);
       text ← lift (template_text data);
       jsonMatch ← lift (value_match text);
       match jsonMatch with
       | Some matched =>
           match JSON_parse StringToNumber matched with
           | Some v => mret v
           | None => throw (ErrorObject (engine_message (InvalidJson matched)))
           end
       | None => mret empty_template
       end)
    (fun error =>
       console_error "템플릿 생성 오류:";;
       mret empty_template).

Definition generateExcelTemplate (w : World) (description : string)
  : list Event * Settled :=
  call (generateExcelTemplate_body w description).



(** The text of a response as the specification reads it: the field
    [candidates[0].content.parts[0].text] of the body. *)
Definition response_with_text (t : string) : json number :=
  JObject [("candidates",
            JArray [JObject [("content",
                              JObject [("parts",
                                        JArray [JObject [("text", JString t)]])])]])].

End Operations.

(** ** A host and sample data to run the model on *)

(** A host whose numbers are kept as their literal text.  The examples
    below contain no number; the instance shows that the interface can be
    met and lets the definitions be evaluated. *)
Definition literal_host : Host :=
  {| number := string;
     number_truthy := fun n => negb (bool_decide (n = "0"));
     StringToNumber := fun lexeme => lexeme;
     Number_toString := fun n => n;
     Object_ToString := fun _ => Normal "[object Object]";
     engine_message := fun k =>
       match k with
       | CannotReadProperty _ name => "Cannot read properties (reading " ++ name ++ ")"
       | NotAFunction callee => callee ++ " is not a function"
       | InvalidJson _ => "Unexpected token in JSON"
       end |}.

(** The end-to-end scenario of the specification (section 8). *)
Definition staff_table : ExcelData string :=
  {| headers := ["성명"; "부서"];
     rows := [[CStr "김철수"; CStr "개발팀"]];
     sheetName := "Sheet1" |}.

Definition staff_mapping : gmap string string :=
  {[ "이름" := "성명"; "팀" := "부서" ]}.

(** A table with a column whose header is the empty string. *)
Definition blank_header_table : ExcelData string :=
  {| headers := [""; "b"];
     rows := [[CStr "x"; CStr "y"]];
     sheetName := "Sheet1" |}.

(** A table with the same header twice. *)
Definition twin_header_table : ExcelData string :=
  {| headers := ["a"; "a"];
     rows := [[CStr "1"; CStr "2"]];
     sheetName := "Sheet1" |}.

(** The response text of the specification's extraction example. *)
Definition prose_text : string :=
  "Here is the result: {" ++ quote ++ "columnMapping" ++ quote ++ ":{"
  ++ quote ++ "Name" ++ quote ++ ":" ++ quote ++ "성명" ++ quote ++ "},"
  ++ quote ++ "suggestions" ++ quote ++ ":[]} Thanks.".

(** A world with a key, whose endpoint answers every request with [body]
    and the given status. *)
Definition answering `{Host} (status_ok : bool) (body : json number) : World :=
  {| GEMINI_API_KEY := Some "k";
     network := fun _ =>
       Normal {| ok := status_ok; statusText := "status"; json_body := Normal body |} |}.

(** A world without a key. *)
Definition keyless `{Host} : World :=
  {| GEMINI_API_KEY := None;
     network := fun _ => Throw (ErrorObject "Failed to fetch") |}.

(** Ten sample rows. *)
Definition ten_rows : list (list (Cell string)) :=
  (fun n => [CStr n; CStr "x"]) <$>
    ["r1"; "r2"; "r3"; "r4"; "r5"; "r6"; "r7"; "r8"; "r9"; "r10"].

(** ** Chaining two projections *)

(** The mapping that does in one projection what [first] followed by
    [second] does in two: an output name of [second] goes to what [first]
    maps its source name to.  An entry of [second] whose value is the empty
    string gives no entry. *)
Definition compose_mapping (second first : gmap string string)
  : gmap string string :=
  omap (fun src => if bool_decide (src = "") then None else first !! src) second.

(** ** The older copy of the mapping analysis *)

Section LegacyOperations.

Context `{Host}.

Definition legacy_endpoint : string :=
  "https://generativelanguage.googleapis.com/v1beta/models/gemini-1.5-flash:generateContent?key=".

Definition legacy_analyze_request (w : World) (prompt : string) : Request :=
  {| url := legacy_endpoint ++ key_text (GEMINI_API_KEY w);
     method := "POST";
     content_type := "application/json";
     text := prompt;
     temperature := "0.3";
     maxOutputTokens := 2048 |}.

(** The body of the second [analyzeExcelWithAI] of the source: the same
    prompt, no check of the key, a [throw] on a non-success status, the
    chain of [generateExcelTemplate] to reach the text, and one handler
    with one message for everything thrown. *)
Definition legacy_analyzeExcelWithAI_body (w : World) (headers : list string)
    (sampleData : list (list (Cell number))) (targetFormat : string)
  : Eff (json number) :=
  let prompt := analyze_prompt headers sampleData targetFormat in
  try_catch
    (response ← fetch w (legacy_analyze_request w prompt);
     if negb (ok response) then
       throw (ErrorObject "AI 분석 요청 실패")
     else
       data ← lift (json_body response);
       text ← lift (template_text data);
       jsonMatch ← lift (value_match text);
       match jsonMatch with
       | Some matched =>
           match JSON_parse StringToNumber matched with
           | Some v => mret v
           | None => throw (ErrorObject (engine_message (InvalidJson matched)))
           end
       | None => mret (degraded "AI 응답을 파싱할 수 없습니다.")
       end)
    (fun error =>
       console_error "AI 분석 오류:";;
       mret (degraded "AI 분석 중 오류가 발생했습니다.")).

Definition legacy_analyzeExcelWithAI (w : World) (headers : list string)
    (sampleData : list (list (Cell number))) (targetFormat : string)
  : list Event * Settled :=
  call (legacy_analyzeExcelWithAI_body w headers sampleData targetFormat).

End LegacyOperations.

(** ** Reading and writing workbooks (excelService.ts) *)

(** How a promise over any type settles. *)
Inductive promise (A : Type) : Type :=
  | Fulfilled (a : A)
  | Broken (e : thrown).

Arguments Fulfilled {A} a.
Arguments Broken {A} e.

(** The XLSX library as [createExcelFile] uses it.  Whether
    [book_append_sheet] accepts a name next to the names already in the
    workbook, and whether [writeFile] delivers the sheets under a file
    name, is the library's matter: each may throw. *)
Class Xlsx (number : Type) : Type := mkXlsx {
  book_append_sheet_throws : list string -> string -> option thrown;
  writeFile_throws :
    list (string * list (list (Cell number))) -> string -> option thrown;
}.

Section Workbooks.

Context {number : Type} {library : Xlsx number}.

(** What [XLSX.utils.sheet_to_json(worksheet, {header: 1})] gives for one
    worksheet, typed as the code casts it: no row at all, or a first row of
    header names and the rows after it. *)
Definition SheetRows : Type := option (list string * list (list (Cell number))).

(** The same rows as the array of arrays the library deals in. *)
Definition sheet_rows_array (j : SheetRows) : list (list (Cell number)) :=
  match j with
  | Some (first, others) => (CStr <$> first) :: others
  | None => []
  end.

(** A workbook as [parseExcelFile] walks it: the names of
    [workbook.SheetNames] in order, each with the rows of its sheet. *)
Definition Workbook : Type := list (string * SheetRows).

(** How the [FileReader] and the library end for one file: [onerror], or
    [onload] with what [XLSX.read] and the [sheet_to_json] calls inside the
    [try] block give or throw. *)
Inductive FileOutcome : Type :=
  | ReadError
  | Loaded (decoded : completion Workbook).

(** The callback of [workbook.SheetNames.map]: [headers] is
    [jsonData[0] || []], [rows] is [jsonData.slice(1)]. *)
Definition parse_sheet (sheet : string * SheetRows) : ExcelData number :=
  let '(name, jsonData) := sheet in
  {| headers := match jsonData with Some (first, _) => first | None => [] end;
     rows := match jsonData with Some (_, others) => others | None => [] end;
     sheetName := name |}.

(** [parseExcelFile]. *)
Definition parseExcelFile (file : FileOutcome) : promise (list (ExcelData number)) :=
  match file with
  | ReadError => Broken (ErrorObject "파일을 읽는 중 오류가 발생했습니다.")
  | Loaded (Throw error) => Broken error
  | Loaded (Normal workbook) => Fulfilled (parse_sheet <$> workbook)
  end.

(** A workbook under construction, and the file [XLSX.writeFile] is asked
    to deliver: sheets in order, each an array of arrays under a name. *)
Definition Sheets : Type := list (string * list (list (Cell number))).

Record WrittenFile : Type := mkWrittenFile {
  file_name : string;
  file_sheets : Sheets;
}.

(** [[headers, ...rows]]. *)
Definition sheet_array (t : ExcelData number) : list (list (Cell number)) :=
  (CStr <$> headers t) :: rows t.

(** The [data.forEach] of [createExcelFile], from the workbook built so
    far. *)
Fixpoint append_sheets (workbook : Sheets) (data : list (ExcelData number))
  : completion Sheets :=
  match data with
  | [] => Normal workbook
  | t :: data' =>
      match book_append_sheet_throws (workbook.*1) (sheetName t) with
      | Some error => Throw error
      | None => append_sheets (workbook ++ [(sheetName t, sheet_array t)])%list data'
      end
  end.

(** [createExcelFile(data, fileName = 'output.xlsx')]: the file written,
    or what a library call threw. *)
Definition createExcelFile (data : list (ExcelData number))
    (fileName : option string) : completion WrittenFile :=
  let name := default "output.xlsx" fileName in
  match append_sheets [] data with
  | Normal workbook =>
      match writeFile_throws workbook name with
      | Some error => Throw error
      | None => Normal {| file_name := name; file_sheets := workbook |}
      end
  | Throw error => Throw error
  end.

(** ** The handlers of the converter (ExcelConverter.tsx) *)

(** The state of the component.  The column mapping is the object held in
    the state, as its entries in the order [Object.keys] lists them, each
    key once. *)
Record State : Type := mkState {
  sourceData : option (ExcelData number);
  targetFormat : string;
  columnMapping : list (string * string);
  suggestions : list string;
  loading : bool;
  analyzing : bool;
  dragActive : bool;
}.

Inductive UiEvent : Type :=
  | UiConsoleError (label : string)
  | Alert (message : string).

(** [processFile]: the state once the handler is through, and what it
    showed. *)
Definition processFile (st : State) (file : FileOutcome) : State * list UiEvent :=
  match parseExcelFile file with
  | Fulfilled sheets =>
      match sheets with
      | first :: _ =>
          ({| sourceData := Some first;
              targetFormat := targetFormat st;
              columnMapping := [];
              suggestions := [];
              loading := false;
              analyzing := analyzing st;
              dragActive := dragActive st |}, [])
      | [] =>
          ({| sourceData := sourceData st;
              targetFormat := targetFormat st;
              columnMapping := columnMapping st;
              suggestions := suggestions st;
              loading := false;
              analyzing := analyzing st;
              dragActive := dragActive st |}, [])
      end
  | Broken error =>
      ({| sourceData := sourceData st;
          targetFormat := targetFormat st;
          columnMapping := columnMapping st;
          suggestions := suggestions st;
          loading := false;
          analyzing := analyzing st;
          dragActive := dragActive st |},
       [UiConsoleError "파일 처리 오류:"; Alert "파일을 처리하는 중 오류가 발생했습니다."])
  end.

(** [handleDownload]: [None] when the guard returns, otherwise how
    [createExcelFile] ended. *)
Definition handleDownload (st : State) : option (completion WrittenFile) :=
  match sourceData st with
  | None => None
  | Some data =>
      let outputHeaders := (columnMapping st).*1 in
      if (length outputHeaders =? 0)%nat then None
      else
        let transformed :=
          transformData data (list_to_map (columnMapping st)) outputHeaders in
        Some (createExcelFile [transformed] (Some "변환된_파일.xlsx"))
  end.

(** [handleReset]. *)
Definition handleReset (st : State) : State :=
  {| sourceData := None;
     targetFormat := "";
     columnMapping := [];
     suggestions := [];
     loading := loading st;
     analyzing := analyzing st;
     dragActive := dragActive st |}.

End Workbooks.

(** ** More sample data *)

(** A library that accepts every call. *)
Definition accepting_library : Xlsx string :=
  {| book_append_sheet_throws := fun _ _ => None;
     writeFile_throws := fun _ _ => None |}.

(** A world with a key whose network is down. *)
Definition offline `{Host} : World :=
  {| GEMINI_API_KEY := Some "k";
     network := fun _ => Throw (ErrorObject "Failed to fetch") |}.

(** The error body of the provider. *)
Definition quota_body {number} : json number :=
  JObject [("error", JObject [("message", JString "quota exceeded")])].

(** A workbook of two sheets, the second without rows. *)
Definition two_sheets : @Workbook string :=
  [("Staff", Some (["성명"; "부서"], [[CStr "김철수"; CStr "개발팀"]]));
   ("Empty", None)].

(** The state after an upload of the staff table and an analysis. *)
Definition ready_state : @State string :=
  {| sourceData := Some staff_table;
     targetFormat := "이름, 팀";
     columnMapping := [("이름", "성명"); ("팀", "부서")];
     suggestions := [];
     loading := false;
     analyzing := false;
     dragActive := false |}.

(** The file a download writes from that state. *)
Definition staff_download : @WrittenFile string :=
  {| file_name := "변환된_파일.xlsx";
     file_sheets :=
       [("Sheet1", [[CStr "이름"; CStr "팀"]; [CStr "김철수"; CStr "개발팀"]])] |}.

(** ** The analysis handler of the converter (ExcelConverter.tsx) *)

(** What [handleAnalyze] does to the component: the calls of its state
    setters with the values they are given, which are run-time values and
    not checked against the declared types, and what it shows. *)
Inductive Action `{Host} : Type :=
  | SetAnalyzing (flag : bool)
  | SetColumnMapping (v : value)
  | SetSuggestions (v : value)
  | LogError (label : string)
  | ShowAlert (message : string).

Section AnalyzeHandler.

Context `{Host}.

(** [result.name] for the two names the handler reads, neither of which is
    a built-in member: a TypeError on [null], the own property of an
    object, [undefined] on anything else. *)
Definition result_property (result : json number) (name : string)
  : completion value :=
  match result with
  | JNull => Throw (ErrorObject (engine_message (CannotReadProperty true name)))
  | JObject members => Normal (obj_get members name)
  | JBool _ | JNumber _ | JString _ | JArray _ => Normal None
  end.

(** The [catch] and [finally] blocks of [handleAnalyze]. *)
Definition analysis_failed : list Action :=
  [LogError "AI 분석 오류:"; ShowAlert "AI 분석 중 오류가 발생했습니다.";
   SetAnalyzing false].

(** [handleAnalyze], from the source data and the target format of the
    state it was created in: the events of the analysis and the actions on
    the component. *)
Definition handleAnalyze (w : World) (source : option (ExcelData number))
    (format : string) : list Event * list Action :=
  match source with
  | None => ([], [])
  | Some data =>
      if bool_decide (format = "") then ([], [])
      else
        let '(events, settled) :=
          analyzeExcelWithAI w (headers data) (rows data) format in
        (events,
         SetAnalyzing true ::
         match settled with
         | Rejected _ => analysis_failed
         | Resolved result =>
             match result_property result "columnMapping" with
             | Throw _ => analysis_failed
             | Normal mapping =>
                 SetColumnMapping mapping ::
                 match result_property result "suggestions" with
                 | Throw _ => analysis_failed
                 | Normal advice => [SetSuggestions advice; SetAnalyzing false]
                 end
             end
         end)
  end.

End AnalyzeHandler.

(** ** The shape the callers of the analysis read *)


(** * Properties *)

(** ** The projection engine *)

Section TableFacts.

Context {number : Type}.

Implicit Types (data : ExcelData number) (row : list (Cell number)).
Implicit Types (columnMapping : gmap string string) (hs : list string).

Lemma indexOf_from_absent hs s i : s ∉ hs → indexOf_from hs s i = -1.
Proof.
  revert i. induction hs as [|h hs IH]; intros i Hs; simpl; [done|].
  apply not_elem_of_cons in Hs as [Hne Hs].
  rewrite bool_decide_eq_false_2 by congruence. by apply IH.
Qed.

Lemma indexOf_from_first hs s i k :
  hs !! k = Some s →
  (∀ k', (k' < k)%nat → hs !! k' ≠ Some s) →
  indexOf_from hs s i = i + Z.of_nat k.
Proof.
  revert i k. induction hs as [|h hs IH]; intros i k Hk Hfirst; [done|].
  destruct k as [|k]; simpl in *.
  - injection Hk as ->. rewrite bool_decide_eq_true_2 by done. lia.
  - rewrite bool_decide_eq_false_2.
    + rewrite (IH (i + 1) k Hk); [lia|].
      intros k' Hk'. apply (Hfirst (S k')). lia.
    + intros ->. by apply (Hfirst 0%nat); [lia|].
Qed.

Lemma row_at_nat row (k : nat) : row_at row (Z.of_nat k) = default CUndefined (row !! k).
Proof.
  unfold row_at. destruct (Z.ltb_spec (Z.of_nat k) 0); [lia|].
  by rewrite Nat2Z.id.
Qed.

(** The four cases of [transform_cell]. *)
Lemma transform_cell_absent data columnMapping row name :
  columnMapping !! name = None → transform_cell data columnMapping row name = CNull.
Proof.
  intros Hm. unfold transform_cell, Record_get. rewrite Hm.
  case_bool_decide; simpl; [|done].
  by destruct (0 <=? -1) eqn:E.
Qed.

Lemma transform_cell_empty data columnMapping row name :
  columnMapping !! name = Some "" → transform_cell data columnMapping row name = CNull.
Proof. intros Hm. unfold transform_cell, Record_get. by rewrite Hm. Qed.

Lemma transform_cell_unmatched data columnMapping row name src :
  columnMapping !! name = Some src → src ∉ headers data →
  transform_cell data columnMapping row name = CNull.
Proof.
  intros Hm Hsrc. unfold transform_cell, Record_get. rewrite Hm. simpl.
  rewrite indexOf_from_absent by done. by case_bool_decide.
Qed.

Lemma transform_cell_matched data columnMapping row name src k :
  columnMapping !! name = Some src → src ≠ "" →
  headers data !! k = Some src →
  (∀ k', (k' < k)%nat → headers data !! k' ≠ Some src) →
  transform_cell data columnMapping row name = default CUndefined (row !! k).
Proof.
  intros Hm Hne Hk Hfirst. unfold transform_cell, Record_get. rewrite Hm. simpl.
  rewrite bool_decide_eq_false_2 by done.
  rewrite (indexOf_from_first _ _ 0 k Hk Hfirst), Z.add_0_l.
  destruct (Z.leb_spec 0 (Z.of_nat k)); [|lia]. apply row_at_nat.
Qed.

Lemma cell_transformData data columnMapping outputHeaders i j row name :
  rows data !! i = Some row → outputHeaders !! j = Some name →
  cell (transformData data columnMapping outputHeaders) i j
  = Some (transform_cell data columnMapping row name).
Proof.
  intros Hi Hj. unfold cell, transformData. simpl.
  rewrite list_lookup_fmap, Hi. simpl. by rewrite list_lookup_fmap, Hj.
Qed.

End TableFacts.

Section TableClaims.

Context {number : Type}.

Implicit Types (data : ExcelData number) (row : list (Cell number)).
Implicit Types (columnMapping : gmap string string).

(** C1 (as amended).  [transformData] keeps the number of rows, and cell
    [(i, j)] of its output is decided by [columnMapping[outputHeaders[j]]]:
    null when the entry is absent or is the empty string; null when the
    mapped name is no header of the source; otherwise the value of source
    row [i] at the first index whose header equals the mapped name, and
    [undefined] when that row is too short to have it. *)
Theorem transformData_cells data columnMapping outputHeaders :
  length (rows (transformData data columnMapping outputHeaders))
  = length (rows data) ∧
  ∀ (i j : nat) row name,
    rows data !! i = Some row → outputHeaders !! j = Some name →
    ∃ c, cell (transformData data columnMapping outputHeaders) i j = Some c ∧
      (columnMapping !! name = None → c = CNull) ∧
      (columnMapping !! name = Some "" → c = CNull) ∧
      (∀ src, columnMapping !! name = Some src → src ∉ headers data →
              c = CNull) ∧
      (∀ src (k : nat),
          columnMapping !! name = Some src → src ≠ "" →
          headers data !! k = Some src →
          (∀ k', (k' < k)%nat → headers data !! k' ≠ Some src) →
          c = default CUndefined (row !! k)).
Proof.
  split.
  - unfold transformData. simpl. apply length_map.
  - intros i j row name Hi Hj.
    exists (transform_cell data columnMapping row name). split.
    + by apply cell_transformData.
    + repeat split.
      * apply transform_cell_absent.
      * apply transform_cell_empty.
      * intros src. apply transform_cell_unmatched.
      * intros src k. apply transform_cell_matched.
Qed.

(** C4 (as amended).  When the headers of a table are pairwise distinct,
    none of them is the empty string and every row has exactly one cell per
    header, projecting the table through the identity mapping over its own
    headers gives back its rows, and the whole table. *)
Theorem transformData_identity data :
  NoDup (headers data) →
  "" ∉ headers data →
  Forall (fun row => length row = length (headers data)) (rows data) →
  rows (transformData data (identity_mapping (headers data)) (headers data))
  = rows data ∧
  transformData data (identity_mapping (headers data)) (headers data) = data.
Proof.
  intros Hnd Hne Hlen.
  assert (Hrows :
    rows (transformData data (identity_mapping (headers data)) (headers data))
    = rows data).
  { unfold transformData. simpl.
    induction Hlen as [|row rs Hrow _ IH]; [done|].
    simpl. f_equal; [|exact IH].
    apply list_eq. intros k. rewrite list_lookup_fmap.
    destruct (headers data !! k) as [h|] eqn:Hk; simpl.
    - assert (Hin : h ∈ headers data) by (by eapply list_elem_of_lookup_2).
      assert (Hm : identity_mapping (headers data) !! h = Some h).
      { unfold identity_mapping. apply elem_of_list_to_map_1'.
        - intros y Hy. apply list_elem_of_fmap in Hy as [h' [Heq _]].
          by injection Heq as -> ->.
        - apply list_elem_of_fmap. by exists h. }
      rewrite (transform_cell_matched data _ row h h k Hm).
      + apply lookup_lt_Some in Hk. rewrite <- Hrow in Hk.
        apply lookup_lt_is_Some_2 in Hk as [c Hc]. by rewrite Hc.
      + intros ->. done.
      + done.
      + intros k' Hlt Hk'.
        pose proof (NoDup_lookup _ _ _ _ Hnd Hk Hk'). lia.
    - symmetry. apply lookup_ge_None. apply lookup_ge_None in Hk. lia. }
  split; [exact Hrows|].
  destruct data as [hs rs sn]. unfold transformData in *. simpl in *.
  by rewrite Hrows.
Qed.

(** C8.  Projecting any table through the empty mapping onto no output
    header gives a table without headers and with one empty row for each
    source row. *)
Theorem transformData_empty data :
  headers (transformData data ∅ []) = [] ∧
  length (rows (transformData data ∅ [])) = length (rows data) ∧
  rows (transformData data ∅ []) = replicate (length (rows data)) [].
Proof.
  unfold transformData. simpl. repeat split.
  - apply length_map.
  - induction (rows data) as [|r rs IH]; simpl; [done|]. by rewrite IH.
Qed.

(** C9.  A mapping entry whose value is the empty string behaves as an
    absent entry: the projection is the one obtained after deleting the
    entry, and every cell of a column whose output header is mapped to the
    empty string is null, whatever the source headers are. *)
Theorem transformData_empty_source_name data columnMapping outputHeaders name :
  columnMapping !! name = Some "" →
  transformData data columnMapping outputHeaders
  = transformData data (delete name columnMapping) outputHeaders ∧
  ∀ (i j : nat) row,
    rows data !! i = Some row → outputHeaders !! j = Some name →
    cell (transformData data columnMapping outputHeaders) i j = Some CNull.
Proof.
  intros Hm. split.
  - unfold transformData. f_equal.
    apply map_ext. intros row. apply map_ext. intros h.
    destruct (decide (h = name)) as [->|Hne].
    + rewrite (transform_cell_empty _ _ _ _ Hm).
      symmetry. apply transform_cell_absent. apply lookup_delete_eq.
    + unfold transform_cell, Record_get. by rewrite lookup_delete_ne.
  - intros i j row Hi Hj.
    rewrite (cell_transformData _ _ _ _ _ _ _ Hi Hj).
    by rewrite (transform_cell_empty _ _ _ _ Hm).
Qed.

(** C10.  The table [transformData] returns carries the sheet name of the
    source table; its headers are the output headers it was given. *)
Theorem transformData_sheetName data columnMapping outputHeaders :
  sheetName (transformData data columnMapping outputHeaders) = sheetName data ∧
  headers (transformData data columnMapping outputHeaders) = outputHeaders.
Proof. by split. Qed.

End TableClaims.


(** ** The regular expression *)

Lemma substring_0_0 s : substring 0 0 s = "".
Proof. by destruct s. Qed.

Lemma star_any_then_close_last s :
  star_any_then_close s
  = (fun j => substring 0 (S j) s) <$> index_of_last "}" s.
Proof.
  induction s as [|c rest IH]; simpl; [done|].
  rewrite IH. destruct (index_of_last "}" rest) as [k|]; simpl; [done|].
  destruct (Ascii.eqb c "}"); simpl; [|done].
  by rewrite substring_0_0.
Qed.

Lemma String_match_no_close s :
  index_of_last "}" s = None → String_match s = None.
Proof.
  induction s as [|c rest IH]; simpl; [done|].
  destruct (index_of_last "}" rest) as [k|] eqn:Hlast; [done|].
  intros _. rewrite star_any_then_close_last, Hlast. simpl.
  destruct (Ascii.eqb c "{"); by apply IH.
Qed.

(** The match of the pattern is the span from the leftmost opening brace
    to the rightmost closing brace, and there is a match exactly when the
    former comes before the latter. *)
Lemma String_match_leftmost_to_rightmost s :
  String_match s = leftmost_to_rightmost s.
Proof.
  induction s as [|c rest IH]; [done|].
  unfold leftmost_to_rightmost in *. simpl.
  rewrite star_any_then_close_last.
  destruct (Ascii.eqb c "{") eqn:Hopen.
  - destruct (index_of_last "}" rest) as [k|] eqn:Hlast; simpl.
    + done.
    + apply Ascii.eqb_eq in Hopen as ->. simpl.
      by apply String_match_no_close.
  - rewrite IH.
    destruct (index_of_first "{" rest) as [i|]; simpl; [|done].
    destruct (index_of_last "}" rest) as [k|]; simpl.
    + change (S i <? S k)%nat with (i <? k)%nat.
      destruct (i <? k)%nat eqn:Hlt; [|done].
      apply Nat.ltb_lt in Hlt.
      by replace (k - i)%nat with (S (k - S i))%nat by lia.
    + by destruct (Ascii.eqb c "}").
Qed.

Lemma index_of_first_le c s (p : nat) :
  String.get p s = Some c → ∃ i, index_of_first c s = Some i ∧ (i <= p)%nat.
Proof.
  revert p. induction s as [|d rest IH]; intros p Hp; [done|].
  simpl. destruct (Ascii.eqb d c) eqn:E.
  - exists 0%nat. split; [done|lia].
  - destruct p as [|p]; simpl in Hp.
    + injection Hp as ->. by rewrite Ascii.eqb_refl in E.
    + destruct (IH p Hp) as (i & -> & Hi). exists (S i). split; [done|lia].
Qed.

Lemma index_of_last_ge c s (q : nat) :
  String.get q s = Some c → ∃ j, index_of_last c s = Some j ∧ (q <= j)%nat.
Proof.
  revert q. induction s as [|d rest IH]; intros q Hq; [done|].
  simpl. destruct q as [|q]; simpl in Hq.
  - injection Hq as ->. rewrite Ascii.eqb_refl.
    destruct (index_of_last c rest) as [k|]; eexists; (split; [done|lia]).
  - destruct (IH q Hq) as (j & -> & Hj). exists (S j). split; [done|lia].
Qed.

(** ** The mapping analysis *)

Section InferenceFacts.

Context `{Host}.

Implicit Types (w : World) (sampleData : list (list (Cell number))).

Lemma append_nonempty (p x : string) : p ≠ "" → p ++ x ≠ "".
Proof. by destruct p. Qed.

Lemma slice_0_3 {A} (l : list A) : slice 0 3 l = take 3 l.
Proof. done. Qed.

Ltac run :=
  unfold analyzeExcelWithAI, analyzeExcelWithAI_body,
    generateExcelTemplate, generateExcelTemplate_body, call, try_catch,
    mbind, Eff_bind, mret, Eff_ret, console_log, console_error, emit,
    fetch, throw, lift.

(** Without a key nothing but the console is touched. *)
Lemma analyze_no_key w hs sampleData targetFormat :
  key_missing (GEMINI_API_KEY w) = true →
  analyzeExcelWithAI w hs sampleData targetFormat
  = ([ConsoleError "GEMINI API KEY가 설정되지 않았습니다."],
     Resolved (degraded "API 키가 설정되지 않았습니다.")).
Proof. intros Hkey. run. by rewrite Hkey. Qed.

Lemma analyze_fetch_rejected w hs sampleData targetFormat e :
  key_missing (GEMINI_API_KEY w) = false →
  network w (analyze_request w (analyze_prompt hs sampleData targetFormat))
  = Throw e →
  snd (analyzeExcelWithAI w hs sampleData targetFormat)
  = Resolved (degraded ("AI 분석 중 오류: " ++ error_text e)).
Proof. intros Hkey Hnet. run. by rewrite Hkey, Hnet. Qed.

Lemma analyze_http_status w hs sampleData targetFormat response :
  key_missing (GEMINI_API_KEY w) = false →
  network w (analyze_request w (analyze_prompt hs sampleData targetFormat))
  = Normal response →
  ok response = false →
  ∃ message, message ≠ "" ∧
    snd (analyzeExcelWithAI w hs sampleData targetFormat)
    = Resolved (degraded message).
Proof.
  intros Hkey Hnet Hok. run. rewrite Hkey, Hnet. simpl.
  destruct (json_body response) as [data|e]; simpl; rewrite ?Hok; simpl;
    repeat case_match; simplify_eq/=;
    eexists; (split; [|reflexivity]); by apply append_nonempty.
Qed.

Ltac step :=
  repeat match goal with
         | Heq : ?x = _ |- context [?x] => rewrite Heq; simpl
         end.



Lemma analyze_text_response_with_text t :
  analyze_text (response_with_text t) = Normal (Some (JString t)).
Proof.
  unfold analyze_text, response_with_text, or_else. simpl.
  by case_bool_decide; simplify_eq/=.
Qed.

(** The events of a call that has a key: the start is logged, one request
    is sent, and nothing after it is a request. *)
Lemma analyze_events w hs sampleData targetFormat :
  key_missing (GEMINI_API_KEY w) = false →
  ∃ later,
    fst (analyzeExcelWithAI w hs sampleData targetFormat)
    = ConsoleLog "Gemini API 호출 시작..."
      :: Fetch (analyze_request w (analyze_prompt hs sampleData targetFormat))
      :: later ∧
    Forall (fun e => is_fetch e = false) later.
Proof.
  intros Hkey. run. rewrite Hkey. simpl.
  repeat case_match; simplify_eq/=; eexists; (split; [reflexivity|]);
    repeat constructor.
Qed.

(** What the call does once the payload is known to be the text
    [payload]. *)
Lemma analyze_payload w hs sampleData targetFormat response data payload :
  key_missing (GEMINI_API_KEY w) = false →
  network w (analyze_request w (analyze_prompt hs sampleData targetFormat))
  = Normal response →
  ok response = true →
  json_body response = Normal data →
  analyze_text data = Normal (Some (JString payload)) →
  payload ≠ "" →
  snd (analyzeExcelWithAI w hs sampleData targetFormat)
  = Resolved
      match String_match payload with
      | Some matched =>
          match JSON_parse StringToNumber matched with
          | Some v => v
          | None => degraded "AI 응답을 파싱할 수 없습니다."
          end
      | None => degraded "AI 응답을 파싱할 수 없습니다."
      end.
Proof.
  intros Hkey Hnet Hok Hbody Htext Hne. run. step.
  rewrite bool_decide_eq_false_2 by done. simpl.
  destruct (String_match payload) as [matched|]; simpl; [|done].
  by destruct (JSON_parse StringToNumber matched).
Qed.

(** C3.  When the response text holds an opening brace with a closing
    brace after it, the text matched is exactly the span from the leftmost
    opening brace to the rightmost closing brace, and the call resolves to
    what [JSON.parse] makes of that span (to the degraded result when it
    does not decode).  For the text of the specification's example, an
    object between two pieces of prose, the call resolves to that object,
    whose column mapping is [{Name: "성명"}]. *)
Theorem analyze_extracts_outer_braces :
  (∀ w hs sampleData targetFormat response data payload (p q : nat),
      key_missing (GEMINI_API_KEY w) = false →
      network w (analyze_request w (analyze_prompt hs sampleData targetFormat))
      = Normal response →
      ok response = true →
      json_body response = Normal data →
      analyze_text data = Normal (Some (JString payload)) →
      String.get p payload = Some "{"%char →
      String.get q payload = Some "}"%char →
      (p < q)%nat →
      ∃ i j : nat,
        index_of_first "{" payload = Some i ∧
        index_of_last "}" payload = Some j ∧
        (i < j)%nat ∧
        String_match payload = Some (substring i (S j - i) payload) ∧
        snd (analyzeExcelWithAI w hs sampleData targetFormat)
        = Resolved
            match JSON_parse StringToNumber (substring i (S j - i) payload) with
            | Some v => v
            | None => degraded "AI 응답을 파싱할 수 없습니다."
            end) ∧
  (∀ w hs sampleData targetFormat response,
      key_missing (GEMINI_API_KEY w) = false →
      network w (analyze_request w (analyze_prompt hs sampleData targetFormat))
      = Normal response →
      ok response = true →
      json_body response = Normal (response_with_text prose_text) →
      snd (analyzeExcelWithAI w hs sampleData targetFormat)
      = Resolved (JObject [("columnMapping", JObject [("Name", JString "성명")]);
                           ("suggestions", JArray [])])).
Proof.
  split.
  - intros w hs sampleData targetFormat response data payload p q
      Hkey Hnet Hok Hbody Htext Hp Hq Hpq.
    destruct (index_of_first_le _ _ _ Hp) as (i & Hi & Hip).
    destruct (index_of_last_ge _ _ _ Hq) as (j & Hj & Hqj).
    assert (Hij : (i < j)%nat) by lia.
    assert (Hmatch : String_match payload = Some (substring i (S j - i) payload)).
    { rewrite String_match_leftmost_to_rightmost. unfold leftmost_to_rightmost.
      rewrite Hi, Hj. by apply Nat.ltb_lt in Hij as ->. }
    exists i, j. repeat split; try done.
    rewrite (analyze_payload _ _ _ _ _ _ _ Hkey Hnet Hok Hbody Htext).
    + by rewrite Hmatch.
    + intros ->. by destruct p.
  - intros w hs sampleData targetFormat response Hkey Hnet Hok Hbody.
    rewrite (analyze_payload _ _ _ _ _ _ _ Hkey Hnet Hok Hbody
               (analyze_text_response_with_text _)); [|done].
    by vm_compute.
Qed.

(** C5.  With a key configured, [analyzeExcelWithAI] sends one request,
    and the prompt it carries is the fixed text around the headers, the
    rendering of the first three rows of [sampleData] joined by newlines,
    and the target format: nothing of a later row is in it.  No other
    request is ever logged; a call on any other sample data with the same
    first three rows behaves the same; for an input of three rows or more,
    ten for instance, the request sent holds exactly rows 1 to 3. *)
Theorem analyze_prompt_first_three_rows w hs sampleData targetFormat :
  let render := fun row : list (Cell number) => join " | " (cell_text <$> row) in
  let around := fun block : string =>
    analyze_prompt_head ++ join ", " hs
    ++ analyze_prompt_sample ++ block
    ++ analyze_prompt_target ++ targetFormat ++ analyze_prompt_tail in
  (key_missing (GEMINI_API_KEY w) = false →
   ∃ request later,
     fst (analyzeExcelWithAI w hs sampleData targetFormat)
     = ConsoleLog "Gemini API 호출 시작..." :: Fetch request :: later ∧
     Forall (fun e => is_fetch e = false) later ∧
     text request = around (join newline (render <$> take 3 sampleData))) ∧
  (∀ request,
      Fetch request ∈ fst (analyzeExcelWithAI w hs sampleData targetFormat) →
      text request
      = analyze_prompt_head ++ join ", " hs
        ++ analyze_prompt_sample ++ join newline (render <$> take 3 sampleData)
        ++ analyze_prompt_target ++ targetFormat ++ analyze_prompt_tail) ∧
  (∀ sampleData',
      take 3 sampleData' = take 3 sampleData →
      analyzeExcelWithAI w hs sampleData' targetFormat
      = analyzeExcelWithAI w hs sampleData targetFormat) ∧
  (length sampleData = 10%nat →
   ∃ r1 r2 r3 later,
     sampleData = r1 :: r2 :: r3 :: later ∧ length later = 7%nat ∧
     sample_block sampleData
     = render r1 ++ newline ++ render r2 ++ newline ++ render r3) ∧
  (∀ r1 r2 r3 later,
      sampleData = r1 :: r2 :: r3 :: later →
      key_missing (GEMINI_API_KEY w) = false →
      ∃ request,
        Fetch request ∈ fst (analyzeExcelWithAI w hs sampleData targetFormat) ∧
        text request
        = around (render r1 ++ newline ++ render r2 ++ newline ++ render r3)).
Proof.
  intros render around.
  assert (Hsent : key_missing (GEMINI_API_KEY w) = false →
    ∃ request later,
      fst (analyzeExcelWithAI w hs sampleData targetFormat)
      = ConsoleLog "Gemini API 호출 시작..." :: Fetch request :: later ∧
      Forall (fun e => is_fetch e = false) later ∧
      text request = around (join newline (render <$> take 3 sampleData))).
  { intros Hkey.
    destruct (analyze_events w hs sampleData targetFormat Hkey)
      as (later & Hev & Hlater).
    by exists (analyze_request w (analyze_prompt hs sampleData targetFormat)),
              later. }
  split; [exact Hsent|]. split; [|split; [|split]].
  - intros request Hin.
    destruct (key_missing (GEMINI_API_KEY w)) eqn:Hkey.
    + rewrite (analyze_no_key _ _ _ _ Hkey) in Hin. simpl in Hin.
      apply list_elem_of_singleton in Hin. discriminate.
    + destruct (analyze_events w hs sampleData targetFormat Hkey)
        as (later & Hev & Hlater).
      rewrite Hev in Hin.
      apply elem_of_cons in Hin as [Hin|Hin]; [discriminate|].
      apply elem_of_cons in Hin as [Hin|Hin].
      * by injection Hin as ->.
      * rewrite Forall_forall in Hlater. by apply Hlater in Hin.
  - intros sampleData' Htake.
    assert (Hprompt : analyze_prompt hs sampleData' targetFormat
                      = analyze_prompt hs sampleData targetFormat).
    { unfold analyze_prompt, sample_block. by rewrite !slice_0_3, Htake. }
    unfold analyzeExcelWithAI, analyzeExcelWithAI_body. by rewrite Hprompt.
  - intros Hlen.
    destruct sampleData as [|r1 [|r2 [|r3 later]]]; try discriminate.
    exists r1, r2, r3, later.
    split; [done|]. split; [simpl in Hlen; lia|done].
  - intros r1 r2 r3 later Hrows Hkey.
    destruct (Hsent Hkey) as (request & rest & Hev & _ & Htext).
    exists request. split.
    + rewrite Hev. apply elem_of_cons. right. apply elem_of_cons. by left.
    + rewrite Htext. by subst sampleData.
Qed.


(** C7 (as amended).  On a non-success HTTP status
    [generateExcelTemplate] raises inside its [try] block and its own
    [catch] block handles the error: after the request the error is logged
    and the call resolves to the empty template.  Whatever happens, the
    call resolves; it never rejects. *)
Theorem generateExcelTemplate_http_status w description :
  (∀ response,
      network w (template_request w (template_prompt description))
      = Normal response →
      ok response = false →
      generateExcelTemplate w description
      = ([Fetch (template_request w (template_prompt description));
          ConsoleError "템플릿 생성 오류:"],
         Resolved empty_template)) ∧
  ∃ v, snd (generateExcelTemplate w description) = Resolved v.
Proof.
  split.
  - intros response Hnet Hok. run. by step.
  - run. simpl. repeat case_match; simplify_eq/=; eauto.
Qed.

End InferenceFacts.

(** ** [JSON.parse]: the recursion bound is never reached *)

Lemma skip_ws_length s : (String.length (skip_ws s) <= String.length s)%nat.
Proof. induction s as [|c s IH]; simpl; [lia|]. destruct (is_ws c); simpl; lia. Qed.

Lemma strip_prefix_length p s r :
  strip_prefix p s = Some r →
  String.length s = (String.length p + String.length r)%nat.
Proof.
  revert s. induction p as [|a p IH]; intros [|b s] Hs; simpl in *; simplify_eq; try done.
  destruct (Ascii.eqb a b); [|done]. by rewrite (IH _ Hs).
Qed.

Lemma digits_length s ds r :
  digits s = (ds, r) → (String.length r <= String.length s)%nat.
Proof.
  revert ds r. induction s as [|c s IH]; intros ds r Hd; simpl in *.
  - simplify_eq. simpl. lia.
  - destruct (is_digit c).
    + destruct (digits s) as [ds' r'] eqn:E. simplify_eq.
      specialize (IH _ _ eq_refl). lia.
    + simplify_eq. simpl. lia.
Qed.

Ltac digit_lengths :=
  repeat match goal with
         | Hd : digits _ = _ |- _ => apply digits_length in Hd; simpl in Hd
         end.

Lemma number_int_length s i r :
  number_int s = Some (i, r) → (String.length r < String.length s)%nat.
Proof.
  unfold number_int. intros Hn.
  repeat (case_match; simplify_eq/=); digit_lengths; lia.
Qed.

Lemma number_frac_length s f r :
  number_frac s = Some (f, r) → (String.length r <= String.length s)%nat.
Proof.
  unfold number_frac. intros Hn.
  repeat (case_match; simplify_eq/=); digit_lengths; lia.
Qed.

Lemma number_exp_length s e r :
  number_exp s = Some (e, r) → (String.length r <= String.length s)%nat.
Proof.
  unfold number_exp. intros Hn.
  repeat (case_match; simplify_eq/=); digit_lengths; lia.
Qed.

Lemma number_text_length s lexeme r :
  number_text s = Some (lexeme, r) → (String.length r < String.length s)%nat.
Proof.
  unfold number_text. intros Hn.
  destruct (match s with
            | String c rest => if Ascii.eqb c "-" then ("-", rest) else ("", s)
            | EmptyString => ("", s)
            end) as [minus s0] eqn:Hminus.
  assert (String.length s0 <= String.length s)%nat
    by (repeat (case_match; simplify_eq/=); lia).
  destruct (number_int s0) as [[i s1]|] eqn:Hi; [|done]. simpl in Hn.
  destruct (number_frac s1) as [[f s2]|] eqn:Hf; [|done]. simpl in Hn.
  destruct (number_exp s2) as [[e s3]|] eqn:He; [|done]. simpl in Hn.
  simplify_eq.
  apply number_int_length in Hi. apply number_frac_length in Hf.
  apply number_exp_length in He. lia.
Qed.

Lemma parse_string_body_length s str r :
  parse_string_body s = Some (str, r) → (String.length r < String.length s)%nat.
Proof.
  remember (String.length s) as n eqn:Hn. revert s str r Hn.
  induction n as [n IH] using lt_wf_ind. intros s str r -> Hs.
  destruct s as [|c rest]; [done|]. simpl in Hs.
  repeat (case_match; simplify_eq/=); try lia;
    match type of Hs with
    | context [parse_string_body ?t] =>
        destruct (parse_string_body t) as [[str' r']|] eqn:Hb; simplify_eq/=;
        eapply (IH (String.length t)) in Hb; [|simpl; lia|reflexivity]; lia
    end.
Qed.

Section JsonFuel.

Context {number : Type} (StringToNumber : string -> number).

#[local] Arguments strip_prefix : simpl never.

Lemma consumes_le {A} (s s' : string) (r : parsed A) :
  (String.length s' <= String.length s)%nat → consumes s' r → consumes s r.
Proof. destruct r; simpl; [lia|done|done]. Qed.

Ltac lengths :=
  repeat match goal with
         | Hw : skip_ws ?x = ?y |- _ =>
             let Hl := fresh "Hl" in
             pose proof (skip_ws_length x) as Hl; rewrite Hw in Hl;
             simpl in Hl; clear Hw
         | Hb : parse_string_body _ = Some _ |- _ =>
             apply parse_string_body_length in Hb
         | Hp : strip_prefix _ _ = Some _ |- _ =>
             apply strip_prefix_length in Hp; simpl in Hp
         | Hn : number_text _ = Some _ |- _ =>
             apply number_text_length in Hn; simpl in Hn
         end.

(** With fuel above twice the length of the text, the three parsing
    functions end by themselves. *)
Lemma parse_fuel_enough (n : nat) :
  (∀ s, (2 * String.length s + 1 <= n)%nat →
        consumes s (parse_value StringToNumber n s)) ∧
  (∀ s acc, (2 * String.length s + 2 <= n)%nat →
            consumes s (parse_elements StringToNumber n s acc)) ∧
  (∀ s acc, (2 * String.length s + 2 <= n)%nat →
            consumes s (parse_members StringToNumber n s acc)).
Proof.
  induction n as [|n (IHv & IHe & IHm)].
  { repeat split; intros; lia. }
  split; [|split].
  - intros s Hn. simpl.
    destruct (skip_ws s) as [|c rest] eqn:Hws; [done|].
    destruct (Ascii.eqb c "{").
    { destruct (skip_ws rest) as [|d rest'] eqn:Hws'; [done|].
      lengths. destruct (Ascii.eqb d "}"); simpl; [lia|].
      eapply consumes_le; [|apply IHm]; simpl; lia. }
    destruct (Ascii.eqb c "[").
    { destruct (skip_ws rest) as [|d rest'] eqn:Hws'; [done|].
      lengths. destruct (Ascii.eqb d "]"); simpl; [lia|].
      eapply consumes_le; [|apply IHe]; simpl; lia. }
    destruct (Ascii.eqb c "034").
    { destruct (parse_string_body rest) as [[str r]|] eqn:Hb; [|done].
      lengths. simpl. lia. }
    destruct (Ascii.eqb c "t").
    { destruct (strip_prefix "true" (String c rest)) as [r|] eqn:Hp; [|done].
      lengths. simpl. lia. }
    destruct (Ascii.eqb c "f").
    { destruct (strip_prefix "false" (String c rest)) as [r|] eqn:Hp; [|done].
      lengths. simpl. lia. }
    destruct (Ascii.eqb c "n").
    { destruct (strip_prefix "null" (String c rest)) as [r|] eqn:Hp; [|done].
      lengths. simpl. lia. }
    destruct (number_text (String c rest)) as [[lexeme r]|] eqn:Hnum; [|done].
    lengths. simpl. lia.
  - intros s acc Hn. simpl.
    pose proof (IHv s ltac:(lia)) as Hv.
    destruct (parse_value StringToNumber n s) as [v r| |]; simpl in *; [|done|done].
    repeat (case_match; simplify_eq/=); lengths; try done; try lia.
    eapply consumes_le; [|apply IHe]; simpl in *; lia.
  - intros s acc Hn. simpl.
    destruct (skip_ws s) as [|q rest] eqn:Hws; [done|].
    destruct (Ascii.eqb q "034"); [|done].
    destruct (parse_string_body rest) as [[k r1]|] eqn:Hk; [|done].
    destruct (skip_ws r1) as [|c r2] eqn:Hws1; [done|].
    destruct (Ascii.eqb c ":"); [|done].
    lengths.
    pose proof (IHv r2 ltac:(simpl in *; lia)) as Hv.
    destruct (parse_value StringToNumber n r2) as [v r3| |]; simpl in *; [|done|done].
    repeat (case_match; simplify_eq/=); lengths; try done; try lia.
    eapply consumes_le; [|apply IHm]; simpl in *; lia.
Qed.

(** The bound [JSON_parse] gives is enough for every text: the outcome is
    a value or a syntax error, never the bound. *)
Lemma parse_value_fuel (text : string) :
  parse_value StringToNumber (2 * String.length text + 2) text ≠ OutOfFuel.
Proof.
  pose proof (proj1 (parse_fuel_enough (2 * String.length text + 2)) text
                ltac:(lia)) as Hc.
  intros Heq. by rewrite Heq in Hc.
Qed.

End JsonFuel.

(** ** The projection engine: shape, provenance and composition *)

Section TableMore.

Context {number : Type}.

Implicit Types (data : ExcelData number) (row : list (Cell number)).
Implicit Types (columnMapping : gmap string string) (hs : list string).

Lemma first_index_of (hs : list string) (s : string) :
  s ∈ hs →
  ∃ k : nat, hs !! k = Some s ∧ ∀ k', (k' < k)%nat → hs !! k' ≠ Some s.
Proof.
  induction hs as [|h hs IH]; intros Hin; [by apply elem_of_nil in Hin|].
  destruct (decide (h = s)) as [->|Hne].
  - exists 0%nat. split; [done|]. intros k' Hk'. lia.
  - apply elem_of_cons in Hin as [Heq|Hin]; [congruence|].
    destruct (IH Hin) as (k & Hk & Hfirst). exists (S k). split; [done|].
    intros [|k'] Hk'; simpl; [congruence|]. apply Hfirst. lia.
Qed.

(** A cell of the output is null, [undefined] or a cell of the source
    row. *)
Lemma transform_cell_provenance data columnMapping row name :
  let c := transform_cell data columnMapping row name in
  c = CNull ∨ c = CUndefined ∨ c ∈ row.
Proof.
  unfold transform_cell. simpl.
  destruct (falsy _); [by left|].
  destruct (0 <=? _); [|by left].
  unfold row_at. destruct (_ <? 0); [by right; left|].
  destruct (row !! _) as [c|] eqn:Hc; simpl; [|by right; left].
  right; right. by eapply list_elem_of_lookup_2.
Qed.

(** The cell depends on the mapping through the entry of its own output
    header only. *)
Lemma transform_cell_agree data columnMapping columnMapping' row name :
  columnMapping !! name = columnMapping' !! name →
  transform_cell data columnMapping row name
  = transform_cell data columnMapping' row name.
Proof. intros Heq. unfold transform_cell, Record_get. by rewrite Heq. Qed.

(** A cell of a projection of a projection. *)
Lemma transform_cell_compose data first second outputHeaders row name :
  (∀ src, second !! name = Some src → src ≠ "" → src ∈ outputHeaders) →
  transform_cell (transformData data first outputHeaders) second
    (transform_cell data first row <$> outputHeaders) name
  = transform_cell data (compose_mapping second first) row name.
Proof.
  intros Hsrc.
  destruct (second !! name) as [src|] eqn:Hsecond.
  - destruct (decide (src = "")) as [->|Hne].
    + rewrite (transform_cell_empty _ _ _ _ Hsecond).
      symmetry. apply transform_cell_absent.
      unfold compose_mapping. by rewrite lookup_omap, Hsecond.
    + destruct (first_index_of _ _ (Hsrc src eq_refl Hne)) as (k & Hk & Hfirst).
      rewrite (transform_cell_matched _ _ _ _ src k Hsecond Hne); [|done..].
      rewrite list_lookup_fmap, Hk. simpl.
      assert (Hcomp : compose_mapping second first !! name = first !! src).
      { unfold compose_mapping. rewrite lookup_omap, Hsecond. simpl.
        by rewrite bool_decide_eq_false_2. }
      destruct (first !! src) as [s|] eqn:Hfirst_src.
      * unfold transform_cell, Record_get. by rewrite Hcomp, Hfirst_src.
      * rewrite (transform_cell_absent _ _ _ _ Hfirst_src).
        symmetry. by apply transform_cell_absent.
  - rewrite (transform_cell_absent _ _ _ _ Hsecond).
    symmetry. apply transform_cell_absent.
    unfold compose_mapping. by rewrite lookup_omap, Hsecond.
Qed.

(** X1.  The output of [transformData] is rectangular: every row has
    exactly one cell per output header, however ragged the source rows
    are. *)
Theorem transformData_rectangular data columnMapping outputHeaders :
  Forall (fun row => length row = length outputHeaders)
         (rows (transformData data columnMapping outputHeaders)).
Proof.
  unfold transformData. simpl. apply Forall_forall. intros row Hrow.
  apply list_elem_of_fmap in Hrow as (r & -> & _). apply length_map.
Qed.

(** X2.  [transformData] invents no value: cell [(i, j)] of the output is
    null, [undefined], or one of the cells of source row [i]. *)
Theorem transformData_provenance data columnMapping outputHeaders
    (i j : nat) row c :
  rows data !! i = Some row →
  cell (transformData data columnMapping outputHeaders) i j = Some c →
  c = CNull ∨ c = CUndefined ∨ c ∈ row.
Proof.
  intros Hi Hc.
  destruct (outputHeaders !! j) as [name|] eqn:Hj.
  - rewrite (cell_transformData _ _ _ _ _ _ _ Hi Hj) in Hc.
    injection Hc as <-. apply transform_cell_provenance.
  - unfold cell, transformData in Hc. simpl in Hc.
    rewrite list_lookup_fmap, Hi in Hc. simpl in Hc.
    by rewrite list_lookup_fmap, Hj in Hc.
Qed.

(** X3.  Only the mapping entries of the output headers count: two
    mappings that agree on every output header give the same table. *)
Theorem transformData_mapping_frame data columnMapping columnMapping'
    outputHeaders :
  (∀ name, name ∈ outputHeaders →
           columnMapping !! name = columnMapping' !! name) →
  transformData data columnMapping outputHeaders
  = transformData data columnMapping' outputHeaders.
Proof.
  intros Hagree. unfold transformData. f_equal.
  apply map_ext. intros row. apply map_ext_in. intros name Hin.
  apply transform_cell_agree, Hagree. by apply list_elem_of_In.
Qed.

(** X4.  Two projections in a row are one projection through the composed
    mapping, provided every non-empty source name the second mapping uses
    for its output headers is an output header of the first. *)
Theorem transformData_compose data first second outputHeaders outputHeaders' :
  (∀ name src, name ∈ outputHeaders' → second !! name = Some src →
               src ≠ "" → src ∈ outputHeaders) →
  transformData (transformData data first outputHeaders) second outputHeaders'
  = transformData data (compose_mapping second first) outputHeaders'.
Proof.
  intros Hsrc. unfold transformData at 1 3. simpl. f_equal.
  rewrite map_map. apply map_ext. intros row.
  apply map_ext_in. intros name Hin.
  apply transform_cell_compose. intros src. apply Hsrc.
  by apply list_elem_of_In.
Qed.

(** X5.  Projecting an output of [transformData] again through the
    identity mapping over its own headers changes nothing, when these
    headers are pairwise distinct and none is the empty string. *)
Theorem transformData_reproject data columnMapping outputHeaders :
  NoDup outputHeaders →
  "" ∉ outputHeaders →
  transformData (transformData data columnMapping outputHeaders)
    (identity_mapping outputHeaders) outputHeaders
  = transformData data columnMapping outputHeaders.
Proof.
  intros Hnd Hne. unfold transformData at 1 3. simpl. f_equal.
  rewrite map_map. apply map_ext. intros row.
  apply map_ext_in. intros name Hin. apply list_elem_of_In in Hin.
  assert (Hid : identity_mapping outputHeaders !! name = Some name).
  { unfold identity_mapping. apply elem_of_list_to_map_1'.
    - intros y Hy. apply list_elem_of_fmap in Hy as (h & Heq & _).
      by injection Heq as -> ->.
    - apply list_elem_of_fmap. by exists name. }
  rewrite transform_cell_compose.
  - apply transform_cell_agree. unfold compose_mapping.
    rewrite lookup_omap, Hid. simpl.
    rewrite bool_decide_eq_false_2; [done|]. by intros ->.
  - intros src Hsrc _. rewrite Hid in Hsrc. by injection Hsrc as <-.
Qed.

End TableMore.

(** ** The regular expression: which texts match, and what *)

Lemma append_nil_l (s : string) : "" ++ s = s.
Proof. reflexivity. Qed.

Lemma append_cons (c : ascii) (s t : string) : String c s ++ t = String c (s ++ t).
Proof. reflexivity. Qed.

Lemma star_any_then_close_none s :
  star_any_then_close s = None ↔ index_of_last "}" s = None.
Proof.
  rewrite star_any_then_close_last.
  by destruct (index_of_last "}" s).
Qed.

Lemma star_any_then_close_spans s m :
  star_any_then_close s = Some m ↔
  ∃ mid post, s = mid ++ "}" ++ post ∧ index_of_last "}" post = None ∧
              m = mid ++ "}".
Proof.
  split.
  - revert m. induction s as [|c rest IH]; intros m Hm; [done|].
    simpl in Hm. destruct (star_any_then_close rest) as [m1|] eqn:Hrest.
    + injection Hm as <-.
      destruct (IH m1 eq_refl) as (mid & post & -> & Hpost & ->).
      by exists (String c mid), post.
    + destruct (Ascii.eqb c "}") eqn:Hc; [|done].
      injection Hm as <-. apply Ascii.eqb_eq in Hc as ->.
      exists "", rest. by apply star_any_then_close_none in Hrest.
  - intros (mid & post & -> & Hpost & ->).
    induction mid as [|c mid IH]; rewrite ?append_cons, ?append_nil_l;
      cbn [star_any_then_close].
    + apply star_any_then_close_none in Hpost.
      rewrite Hpost. by rewrite Ascii.eqb_refl.
    + rewrite append_cons, append_nil_l in IH. by rewrite IH.
Qed.

(** A text made of a prefix without opening brace, a braced span and a
    suffix without closing brace matches with exactly the span. *)
Lemma String_match_wrapped pre mid post :
  index_of_first "{" pre = None →
  index_of_last "}" post = None →
  String_match (pre ++ "{" ++ mid ++ "}" ++ post) = Some ("{" ++ mid ++ "}").
Proof.
  intros Hpre Hpost. induction pre as [|c pre IH].
  - assert (Hstar : star_any_then_close (mid ++ "}" ++ post) = Some (mid ++ "}"))
      by (apply star_any_then_close_spans; by exists mid, post).
    rewrite !append_cons, !append_nil_l in *.
    cbn [String_match regex_match_here].
    rewrite Ascii.eqb_refl, Hstar. done.
  - simpl in Hpre. destruct (Ascii.eqb c "{") eqn:Hc; [done|].
    destruct (index_of_first "{" pre); [done|].
    rewrite append_cons.
    cbn [String_match regex_match_here]. rewrite Hc. by apply IH.
Qed.

Lemma String_match_inv s m :
  String_match s = Some m →
  ∃ pre mid post,
    s = pre ++ "{" ++ mid ++ "}" ++ post ∧
    index_of_first "{" pre = None ∧
    index_of_last "}" post = None ∧
    m = "{" ++ mid ++ "}".
Proof.
  revert m. induction s as [|c rest IH]; intros m Hm; [done|].
  cbn [String_match regex_match_here] in Hm.
  destruct (Ascii.eqb c "{") eqn:Hc.
  - apply Ascii.eqb_eq in Hc as ->.
    destruct (star_any_then_close rest) as [m1|] eqn:Hrest; simpl in Hm.
    + injection Hm as <-.
      apply star_any_then_close_spans in Hrest as (mid & post & -> & Hpost & ->).
      by exists "", mid, post.
    + apply star_any_then_close_none in Hrest.
      by rewrite (String_match_no_close _ Hrest) in Hm.
  - destruct (IH m Hm) as (pre & mid & post & -> & Hpre & Hpost & ->).
    exists (String c pre), mid, post. repeat split; try done.
    simpl. by rewrite Hc, Hpre.
Qed.

(** X6.  The pattern [/\{[\s\S]*\}/] matches a text exactly when the text
    is a prefix without opening brace, then a span from an opening to a
    closing brace, then a suffix without closing brace; the match is that
    span.  So a match always starts with an opening brace, ends with a
    closing one, and has no brace of the respective kind outside it. *)
Theorem String_match_spans s m :
  String_match s = Some m ↔
  ∃ pre mid post,
    s = pre ++ "{" ++ mid ++ "}" ++ post ∧
    index_of_first "{" pre = None ∧
    index_of_last "}" post = None ∧
    m = "{" ++ mid ++ "}".
Proof.
  split.
  - apply String_match_inv.
  - intros (pre & mid & post & -> & Hpre & Hpost & ->).
    by apply String_match_wrapped.
Qed.

(** ** The mapping analysis: requests and diagnostics *)

Section InferenceMore.

Context `{Host}.

Implicit Types (w : World) (sampleData : list (list (Cell number))).

Ltac unfold_calls :=
  unfold analyzeExcelWithAI, analyzeExcelWithAI_body,
    generateExcelTemplate, generateExcelTemplate_body,
    legacy_analyzeExcelWithAI, legacy_analyzeExcelWithAI_body,
    call, try_catch,
    mbind, Eff_bind, mret, Eff_ret, console_log, console_error, emit,
    fetch, throw, lift.

Ltac use_facts :=
  repeat match goal with
         | Heq : ?x = _ |- context [?x] => rewrite Heq; simpl
         end.

(** X7.  [analyzeExcelWithAI] sends one request when a key is configured
    and none otherwise; whatever the outcome is, there is no second
    attempt. *)
Theorem analyze_request_count w hs sampleData targetFormat :
  length (filter (fun e => is_fetch e = true)
                 (fst (analyzeExcelWithAI w hs sampleData targetFormat)))
  = if key_missing (GEMINI_API_KEY w) then 0%nat else 1%nat.
Proof.
  destruct (key_missing (GEMINI_API_KEY w)) eqn:Hkey.
  - by rewrite (analyze_no_key _ _ _ _ Hkey).
  - destruct (analyze_events w hs sampleData targetFormat Hkey)
      as (later & -> & Hlater).
    rewrite filter_cons_False by done. rewrite filter_cons_True by done.
    simpl. f_equal.
    induction Hlater as [|e later He _ IH]; [done|].
    rewrite filter_cons_False; [done|]. by rewrite He.
Qed.

(** X8.  When the transport fails, the one suggestion carries the text of
    the error: of the rejected [fetch], or of the rejected
    [response.json()], in which case the HTTP status is not reported even
    if it was a failure. *)
Theorem analyze_transport_diagnostic w hs sampleData targetFormat :
  key_missing (GEMINI_API_KEY w) = false →
  let request := analyze_request w (analyze_prompt hs sampleData targetFormat) in
  (∀ e, network w request = Throw e →
        snd (analyzeExcelWithAI w hs sampleData targetFormat)
        = Resolved (degraded ("AI 분석 중 오류: " ++ error_text e))) ∧
  (∀ response e,
      network w request = Normal response →
      json_body response = Throw e →
      snd (analyzeExcelWithAI w hs sampleData targetFormat)
      = Resolved (degraded ("AI 분석 중 오류: " ++ error_text e))).
Proof.
  intros Hkey request. subst request. split.
  - intros e Hnet. unfold_calls. by use_facts.
  - intros response e Hnet Hbody. unfold_calls. by use_facts.
Qed.

(** X9.  On a non-success HTTP status with a decoded body, the suggestion
    is [API 오류: ] followed by the provider's [error.message] when the
    body has one that is a non-empty string, and by the status text when
    the body is an object without [error]; a body that is [null] gives the
    engine's TypeError instead. *)
Theorem analyze_http_diagnostic w hs sampleData targetFormat response data :
  key_missing (GEMINI_API_KEY w) = false →
  network w (analyze_request w (analyze_prompt hs sampleData targetFormat))
  = Normal response →
  ok response = false →
  json_body response = Normal data →
  (∀ members details message,
      data = JObject members →
      obj_get members "error" = Some (JObject details) →
      obj_get details "message" = Some (JString message) →
      message ≠ "" →
      snd (analyzeExcelWithAI w hs sampleData targetFormat)
      = Resolved (degraded ("API 오류: " ++ message))) ∧
  (∀ members,
      data = JObject members →
      obj_get members "error" = None →
      snd (analyzeExcelWithAI w hs sampleData targetFormat)
      = Resolved (degraded ("API 오류: " ++ statusText response))) ∧
  (data = JNull →
   snd (analyzeExcelWithAI w hs sampleData targetFormat)
   = Resolved (degraded ("AI 분석 중 오류: "
                         ++ engine_message (CannotReadProperty true "error")))).
Proof.
  intros Hkey Hnet Hok Hbody. split; [|split].
  - intros members details message -> Herror Hmessage Hne.
    unfold_calls. use_facts. unfold or_else, GetOptional. simpl. use_facts.
    by rewrite bool_decide_eq_false_2.
  - intros members -> Herror.
    unfold_calls. use_facts. unfold or_else, GetOptional. simpl. by use_facts.
  - intros ->. unfold_calls. by use_facts.
Qed.

(** X10.  For a successful status the suggestion tells what was wrong with
    the payload: a body without [candidates], or with none in it, is an
    empty response; a text without a braced span, or whose span does not
    decode, cannot be parsed; a [null] body gives the engine's
    TypeError. *)
Theorem analyze_payload_diagnostic w hs sampleData targetFormat response data :
  key_missing (GEMINI_API_KEY w) = false →
  network w (analyze_request w (analyze_prompt hs sampleData targetFormat))
  = Normal response →
  ok response = true →
  json_body response = Normal data →
  (∀ members,
      data = JObject members →
      obj_get members "candidates" = None
      ∨ obj_get members "candidates" = Some (JArray []) →
      snd (analyzeExcelWithAI w hs sampleData targetFormat)
      = Resolved (degraded "AI 응답이 비어있습니다.")) ∧
  (data = response_with_text "" →
   snd (analyzeExcelWithAI w hs sampleData targetFormat)
   = Resolved (degraded "AI 응답이 비어있습니다.")) ∧
  (∀ payload,
      data = response_with_text payload →
      payload ≠ "" →
      String_match payload = None
      ∨ (∃ matched, String_match payload = Some matched ∧
                    JSON_parse StringToNumber matched = None) →
      snd (analyzeExcelWithAI w hs sampleData targetFormat)
      = Resolved (degraded "AI 응답을 파싱할 수 없습니다.")) ∧
  (data = JNull →
   snd (analyzeExcelWithAI w hs sampleData targetFormat)
   = Resolved (degraded ("AI 분석 중 오류: "
                         ++ engine_message (CannotReadProperty true "candidates")))).
Proof.
  intros Hkey Hnet Hok Hbody. split; [|split; [|split]].
  - intros members -> [Hc|Hc]; unfold_calls; use_facts;
      unfold analyze_text, or_else, GetOptional; simpl; by use_facts.
  - intros ->. unfold_calls. by use_facts.
  - intros payload -> Hne Hfail.
    rewrite (analyze_payload _ _ _ _ _ _ _ Hkey Hnet Hok Hbody
               (analyze_text_response_with_text _) Hne).
    destruct Hfail as [->|(matched & -> & ->)]; done.
  - intros ->. unfold_calls. by use_facts.
Qed.

(** X11.  Prose around the object does not matter: when the payload is a
    prefix without opening brace, a braced span and a suffix without
    closing brace, the call resolves to what the span decodes to, or to
    the parse diagnostic when it does not decode. *)
Theorem analyze_wrapped_object w hs sampleData targetFormat response
    pre mid post :
  key_missing (GEMINI_API_KEY w) = false →
  network w (analyze_request w (analyze_prompt hs sampleData targetFormat))
  = Normal response →
  ok response = true →
  json_body response
  = Normal (response_with_text (pre ++ "{" ++ mid ++ "}" ++ post)) →
  index_of_first "{" pre = None →
  index_of_last "}" post = None →
  snd (analyzeExcelWithAI w hs sampleData targetFormat)
  = Resolved
      match JSON_parse StringToNumber ("{" ++ mid ++ "}") with
      | Some v => v
      | None => degraded "AI 응답을 파싱할 수 없습니다."
      end.
Proof.
  intros Hkey Hnet Hok Hbody Hpre Hpost.
  rewrite (analyze_payload _ _ _ _ _ _ _ Hkey Hnet Hok Hbody
             (analyze_text_response_with_text _)).
  - by rewrite String_match_wrapped.
  - destruct pre; discriminate.
Qed.

Lemma or_else_string (s : string) :
  or_else (Some (JString s)) (Some (JString "")) = Some (JString s).
Proof. unfold or_else. simpl. by case_bool_decide; simplify_eq/=. Qed.

Lemma template_text_response_with_text t :
  template_text (response_with_text t) = Normal (Some (JString t)).
Proof.
  unfold template_text, response_with_text, or_else. simpl.
  by case_bool_decide; simplify_eq/=.
Qed.

(** X12.  [generateExcelTemplate] has no check of the key: every call
    starts with its request, the only one of the call, and when the key is
    not configured the URL ends with the text [undefined]. *)
Theorem generateExcelTemplate_always_requests w description :
  (∃ later,
      fst (generateExcelTemplate w description)
      = Fetch (template_request w (template_prompt description)) :: later ∧
      Forall (fun e => is_fetch e = false) later) ∧
  (GEMINI_API_KEY w = None →
   url (template_request w (template_prompt description))
   = endpoint ++ "undefined").
Proof.
  split.
  - unfold_calls. simpl.
    repeat case_match; simplify_eq/=; eexists; (split; [reflexivity|]);
      repeat constructor.
  - intros Hkey. unfold template_request. simpl. by rewrite Hkey.
Qed.

(** X13.  [generateExcelTemplate] resolves either to the object decoded
    from the braced span of the payload, or to the empty template: a
    network error, a failed status, an unreadable or misshapen body, a text
    without span and a span that does not decode all give the same
    [{headers: [], sampleRow: []}], with nothing to tell them apart.  A
    payload that wraps a decodable object in prose resolves to the
    object. *)
Theorem generateExcelTemplate_outcomes w description :
  let request := template_request w (template_prompt description) in
  (∃ v,
      snd (generateExcelTemplate w description) = Resolved v ∧
      (v = empty_template ∨
       ∃ response data payload matched,
         network w request = Normal response ∧ ok response = true ∧
         json_body response = Normal data ∧
         template_text data = Normal (Some (JString payload)) ∧
         String_match payload = Some matched ∧
         JSON_parse StringToNumber matched = Some v)) ∧
  (∀ response pre mid post v,
      network w request = Normal response → ok response = true →
      json_body response
      = Normal (response_with_text (pre ++ "{" ++ mid ++ "}" ++ post)) →
      index_of_first "{" pre = None →
      index_of_last "}" post = None →
      JSON_parse StringToNumber ("{" ++ mid ++ "}") = Some v →
      snd (generateExcelTemplate w description) = Resolved v).
Proof.
  intros request. subst request. split.
  - destruct (network w (template_request w (template_prompt description)))
      as [response|e] eqn:Hnet.
    2: { eexists. split; [unfold_calls; by use_facts|by left]. }
    destruct (ok response) eqn:Hok.
    2: { eexists. split; [unfold_calls; by use_facts|by left]. }
    destruct (json_body response) as [data|e] eqn:Hbody.
    2: { eexists. split; [unfold_calls; by use_facts|by left]. }
    destruct (template_text data) as [payload|e] eqn:Htext.
    2: { eexists. split; [unfold_calls; by use_facts|by left]. }
    destruct payload as [[| b | n | s | es | ms]|].
    all: try (eexists; split; [unfold_calls; by use_facts|by left]).
    destruct (String_match s) as [matched|] eqn:Hmatch.
    2: { eexists. split; [unfold_calls; by use_facts|by left]. }
    destruct (JSON_parse StringToNumber matched) as [v|] eqn:Hparse.
    2: { eexists. split; [unfold_calls; by use_facts|by left]. }
    exists v. split; [unfold_calls; by use_facts|].
    right. by exists response, data, s, matched.
  - intros response pre mid post v Hnet Hok Hbody Hpre Hpost Hparse.
    pose proof (template_text_response_with_text
                  (pre ++ "{" ++ mid ++ "}" ++ post)) as Htext.
    pose proof (String_match_wrapped pre mid post Hpre Hpost) as Hmatch.
    unfold_calls. use_facts. rewrite or_else_string. simpl. by use_facts.
Qed.

(** X14.  The older copy of [analyzeExcelWithAI] never rejects either, but
    it has no check of the key and one message for everything thrown: each
    call starts with its request, the only one; a network error, a failed
    status and a span that does not decode all give
    [AI 분석 중 오류가 발생했습니다.]; a text without a braced span gives
    [AI 응답을 파싱할 수 없습니다.]. *)
Theorem legacy_analyze_outcomes w hs sampleData targetFormat :
  let request :=
    legacy_analyze_request w (analyze_prompt hs sampleData targetFormat) in
  let run := legacy_analyzeExcelWithAI w hs sampleData targetFormat in
  (∃ later, fst run = Fetch request :: later ∧
            Forall (fun e => is_fetch e = false) later) ∧
  (∃ v, snd run = Resolved v) ∧
  (∀ e, network w request = Throw e →
        snd run = Resolved (degraded "AI 분석 중 오류가 발생했습니다.")) ∧
  (∀ response,
      network w request = Normal response → ok response = false →
      snd run = Resolved (degraded "AI 분석 중 오류가 발생했습니다.")) ∧
  (∀ response payload matched,
      network w request = Normal response → ok response = true →
      json_body response = Normal (response_with_text payload) →
      String_match payload = Some matched →
      JSON_parse StringToNumber matched = None →
      snd run = Resolved (degraded "AI 분석 중 오류가 발생했습니다.")) ∧
  (∀ response payload,
      network w request = Normal response → ok response = true →
      json_body response = Normal (response_with_text payload) →
      String_match payload = None →
      snd run = Resolved (degraded "AI 응답을 파싱할 수 없습니다.")).
Proof.
  intros request run. subst request run. repeat split.
  - unfold_calls. simpl.
    repeat case_match; simplify_eq/=; eexists; (split; [reflexivity|]);
      repeat constructor.
  - unfold_calls. simpl. repeat case_match; simplify_eq/=; eauto.
  - intros e Hnet. unfold_calls. by use_facts.
  - intros response Hnet Hok. unfold_calls. by use_facts.
  - intros response payload matched Hnet Hok Hbody Hmatch Hparse.
    unfold_calls. use_facts. rewrite or_else_string. simpl. by use_facts.
  - intros response payload Hnet Hok Hbody Hmatch.
    unfold_calls. use_facts. rewrite or_else_string. simpl. by use_facts.
Qed.

End InferenceMore.

(** ** Workbooks and the handlers of the converter *)

Section WorkbookFacts.

Context {number : Type} {library : Xlsx number}.

Implicit Types (data : list (ExcelData number)) (st : @State number).

(** The sheets [data.forEach] adds: one per table, in order, after those
    already there. *)
Lemma append_sheets_result data (workbook workbook' : @Sheets number) :
  append_sheets workbook data = Normal workbook' →
  workbook'
  = (workbook ++ ((fun t => (sheetName t, sheet_array t)) <$> data))%list.
Proof.
  revert workbook. induction data as [|t data IH]; intros workbook Hrun; simpl in *.
  - injection Hrun as <-. by rewrite app_nil_r.
  - destruct (book_append_sheet_throws _ _); [done|].
    rewrite (IH _ Hrun). by rewrite <- app_assoc.
Qed.

Lemma append_sheets_accepted data (workbook : @Sheets number) :
  (∀ names name, book_append_sheet_throws names name = None) →
  ∃ workbook', append_sheets workbook data = Normal workbook'.
Proof.
  intros Hok. revert workbook. induction data as [|t data IH]; intros workbook; simpl.
  - by eexists.
  - rewrite Hok. apply IH.
Qed.

Lemma createExcelFile_sheets data fileName written :
  createExcelFile data fileName = Normal written →
  file_name written = default "output.xlsx" fileName ∧
  file_sheets written = (fun t => (sheetName t, sheet_array t)) <$> data.
Proof.
  intros Hrun. unfold createExcelFile in Hrun.
  destruct (append_sheets [] data) as [workbook|e] eqn:Happend; [|done].
  destruct (writeFile_throws _ _); [done|]. injection Hrun as <-. simpl.
  split; [done|]. by rewrite (append_sheets_result _ _ _ Happend).
Qed.

(** X15.  Whatever the XLSX library does, a file that [createExcelFile]
    writes has the name given (or [output.xlsx]) and holds exactly the
    tables given, in their order, each under its sheet name with its
    header row first and its rows after it; and when the library accepts
    every call, the file is written. *)
Theorem createExcelFile_written data fileName :
  (∀ written,
      createExcelFile data fileName = Normal written →
      file_name written = default "output.xlsx" fileName ∧
      file_sheets written
      = (fun t => (sheetName t, (CStr <$> headers t) :: rows t)) <$> data) ∧
  ((∀ names name, book_append_sheet_throws names name = None) →
   (∀ workbook name, writeFile_throws workbook name = None) →
   ∃ written, createExcelFile data fileName = Normal written).
Proof.
  split.
  - intros written Hrun. by apply createExcelFile_sheets.
  - intros Happend Hwrite. unfold createExcelFile.
    destruct (append_sheets_accepted data [] Happend) as (workbook & ->).
    rewrite Hwrite. by eexists.
Qed.

(** X16.  Writing what was parsed gives the workbook back: the sheets
    come in the same order under the same names, a sheet that had rows has
    the same rows, and a sheet that had none comes back with one empty
    row. *)
Theorem parse_then_write (workbook : @Workbook number) tables fileName written :
  parseExcelFile (Loaded (Normal workbook)) = Fulfilled tables →
  createExcelFile tables fileName = Normal written →
  file_sheets written
  = (fun sheet : string * SheetRows =>
       (sheet.1, match sheet.2 with
                 | Some _ => sheet_rows_array sheet.2
                 | None => [[]]
                 end)) <$> workbook.
Proof.
  intros Hparse Hwrite. simpl in Hparse. injection Hparse as <-.
  apply createExcelFile_sheets in Hwrite as [_ ->].
  rewrite <- list_fmap_compose. apply list_fmap_ext.
  intros i [name [[first others]|]] _; reflexivity.
Qed.

(** X17.  [processFile] keeps the first sheet only.  When the file parses
    into at least one sheet, that sheet becomes the source data and the
    mapping and the suggestions are emptied, whatever the later sheets are,
    and nothing is shown.  When it parses into no sheet, or does not parse,
    the source data, the mapping and the suggestions stay as they are; an
    alert is shown in the second case only.  The loading flag is off at the
    end in every case and the target format is never touched. *)
Theorem processFile_outcomes st file :
  (∀ sheet later,
      file = Loaded (Normal (sheet :: later)) →
      processFile st file
      = ({| sourceData := Some (parse_sheet sheet);
            targetFormat := targetFormat st;
            columnMapping := [];
            suggestions := [];
            loading := false;
            analyzing := analyzing st;
            dragActive := dragActive st |}, [])) ∧
  (file = Loaded (Normal []) →
   snd (processFile st file) = [] ∧
   sourceData (fst (processFile st file)) = sourceData st ∧
   columnMapping (fst (processFile st file)) = columnMapping st ∧
   suggestions (fst (processFile st file)) = suggestions st) ∧
  (file = ReadError ∨ (∃ e, file = Loaded (Throw e)) →
   snd (processFile st file)
   = [UiConsoleError "파일 처리 오류:"; Alert "파일을 처리하는 중 오류가 발생했습니다."] ∧
   sourceData (fst (processFile st file)) = sourceData st ∧
   columnMapping (fst (processFile st file)) = columnMapping st ∧
   suggestions (fst (processFile st file)) = suggestions st) ∧
  loading (fst (processFile st file)) = false ∧
  targetFormat (fst (processFile st file)) = targetFormat st.
Proof.
  split; [|split; [|split; [|split]]].
  - by intros sheet later ->.
  - by intros ->.
  - by intros [-> | [e ->]].
  - destruct file as [|[[|sheet later]|e]]; reflexivity.
  - destruct file as [|[[|sheet later]|e]]; reflexivity.
Qed.

(** X18.  [handleDownload] does nothing exactly when there is no source
    data or the mapping is empty.  Otherwise a file it writes is named
    [변환된_파일.xlsx] and has one sheet, named as the source sheet: its
    first row is the keys of the mapping in their order, and it has one
    more row for each source row, each as wide as the first. *)
Theorem handleDownload_written st :
  (handleDownload st = None ↔ sourceData st = None ∨ columnMapping st = []) ∧
  (∀ written,
      handleDownload st = Some (Normal written) →
      ∃ source body,
        sourceData st = Some source ∧
        file_name written = "변환된_파일.xlsx" ∧
        file_sheets written
        = [(sheetName source, (CStr <$> (columnMapping st).*1) :: body)] ∧
        length body = length (rows source) ∧
        Forall (fun row => length row = length (columnMapping st)) body).
Proof.
  unfold handleDownload. split.
  - destruct (sourceData st) as [source|]; [|by split; [left|]].
    destruct (columnMapping st) as [|entry entries]; simpl.
    + by split; [right|].
    + split; [done|]. by intros [?|?].
  - intros written Hrun.
    destruct (sourceData st) as [source|]; [|done].
    destruct (length _ =? 0)%nat; [done|]. injection Hrun as Hrun.
    apply createExcelFile_sheets in Hrun as [Hname Hsheets].
    eexists source, _. split; [done|]. split; [done|].
    split; [exact Hsheets|]. simpl. split.
    + apply length_map.
    + apply Forall_forall. intros row Hrow.
      apply list_elem_of_fmap in Hrow as (r & -> & _).
      by rewrite length_map, length_fmap.
Qed.

(** X19.  A new upload and a reset both disarm the download: after
    [processFile] has taken a sheet, and after [handleReset],
    [handleDownload] does nothing, whatever the state was before. *)
Theorem download_disarmed st :
  (∀ sheet later,
      handleDownload (fst (processFile st (Loaded (Normal (sheet :: later)))))
      = None) ∧
  handleDownload (handleReset st) = None.
Proof. split; [intros sheet later|]; reflexivity. Qed.

(** X20.  In a file [handleDownload] writes, the column under the
    [j]-th key of the mapping is the source column the key is mapped to:
    row [i + 1] of the sheet (row 0 is the header row) holds there the cell
    of source row [i] at the first source header equal to the mapped name
    ([undefined] when that row is too short), and null when the mapped
    name is empty or is no source header. *)
Theorem handleDownload_columns st written source (i j : nat) key src row :
  NoDup (columnMapping st).*1 →
  handleDownload st = Some (Normal written) →
  sourceData st = Some source →
  columnMapping st !! j = Some (key, src) →
  rows source !! i = Some row →
  ∃ sheet c,
    file_sheets written = [(sheetName source, sheet)] ∧
    sheet !! S i ≫= (fun r => r !! j) = Some c ∧
    (src = "" ∨ src ∉ headers source → c = CNull) ∧
    (∀ k : nat,
        src ≠ "" → headers source !! k = Some src →
        (∀ k', (k' < k)%nat → headers source !! k' ≠ Some src) →
        c = default CUndefined (row !! k)).
Proof.
  intros Hnd Hrun Hsource Hentry Hrow. unfold handleDownload in Hrun.
  rewrite Hsource in Hrun.
  destruct (length _ =? 0)%nat; [done|]. injection Hrun as Hrun.
  apply createExcelFile_sheets in Hrun as [_ Hsheets]. simpl in Hsheets.
  assert (Hkey : (columnMapping st).*1 !! j = Some key)
    by (by rewrite list_lookup_fmap, Hentry).
  assert (Hmap : (list_to_map (columnMapping st) : gmap string string) !! key
                 = Some src).
  { apply elem_of_list_to_map_1; [done|]. by eapply list_elem_of_lookup_2. }
  eexists _, (transform_cell source (list_to_map (columnMapping st)) row key).
  split; [exact Hsheets|]. split; [|split].
  - unfold sheet_array. simpl. rewrite list_lookup_fmap, Hrow. simpl.
    by rewrite list_lookup_fmap, Hkey.
  - intros [-> | Habsent].
    + by apply transform_cell_empty.
    + by eapply transform_cell_unmatched.
  - intros k Hne Hk Hfirst. by eapply transform_cell_matched.
Qed.

End WorkbookFacts.

(** ** The analysis handler *)

Section JsonObjects.

Context {number : Type} (StringToNumber : string -> number).

(** What [parse_members] reads is an object. *)
Lemma parse_members_object (fuel : nat) s acc v rest :
  parse_members StringToNumber fuel s acc = Parsed v rest →
  ∃ members, v = JObject members.
Proof.
  revert s acc. induction fuel as [|fuel IH]; intros s acc Hparse; [done|].
  simpl in Hparse.
  destruct (skip_ws s) as [|q r0]; [done|].
  destruct (Ascii.eqb q "034"); [|done].
  destruct (parse_string_body r0) as [[k r1]|]; [|done].
  destruct (skip_ws r1) as [|c r2]; [done|].
  destruct (Ascii.eqb c ":"); [|done].
  destruct (parse_value StringToNumber fuel r2) as [v' r3| |]; [|done|done].
  destruct (skip_ws r3) as [|d r4]; [done|].
  destruct (Ascii.eqb d ",").
  - by eapply IH.
  - destruct (Ascii.eqb d "}"); [|done]. injection Hparse as <- _. by eexists.
Qed.

(** A text that starts with an opening brace decodes to an object, if it
    decodes. *)
Lemma JSON_parse_object (rest : string) v :
  JSON_parse StringToNumber (String "{" rest) = Some v →
  ∃ members, v = JObject members.
Proof.
  unfold JSON_parse. intros Hparse.
  destruct (parse_value _ _ _) as [v' r| |] eqn:Hvalue; [|done|done].
  assert (v = v') as <- by (by destruct (skip_ws r); simplify_eq).
  clear Hparse. revert Hvalue.
  generalize (2 * String.length (String "{" rest) + 2)%nat. intros [|fuel]; [done|].
  cbn [parse_value skip_ws is_ws]. simpl.
  destruct (skip_ws rest) as [|d rest']; [done|].
  destruct (Ascii.eqb d "}").
  - intros [= <- _]. by eexists.
  - apply parse_members_object.
Qed.

End JsonObjects.

Section HandlerFacts.

Context `{Host}.

Implicit Types (w : World) (sampleData : list (list (Cell number))).

Ltac unfold_analyze :=
  unfold analyzeExcelWithAI, analyzeExcelWithAI_body, call, try_catch,
    mbind, Eff_bind, mret, Eff_ret, console_log, console_error, emit,
    fetch, throw, lift.

Ltac use_facts :=
  repeat match goal with
         | Heq : ?x = _ |- context [?x] => rewrite Heq; simpl
         end.

(** [analyzeExcelWithAI] resolves, and to an object: the degraded result
    is one, and a span that starts with a brace decodes to nothing else. *)
Lemma analyze_resolves_object w hs sampleData targetFormat :
  ∃ members,
    snd (analyzeExcelWithAI w hs sampleData targetFormat)
    = Resolved (JObject members).
Proof.
  destruct (key_missing (GEMINI_API_KEY w)) eqn:Hkey.
  { rewrite (analyze_no_key _ _ _ _ Hkey). by eexists. }
  destruct (network w (analyze_request w (analyze_prompt hs sampleData targetFormat)))
    as [response|e] eqn:Hnet.
  2: { rewrite (analyze_fetch_rejected _ _ _ _ _ Hkey Hnet). by eexists. }
  destruct (ok response) eqn:Hok.
  2: { destruct (analyze_http_status _ _ _ _ _ Hkey Hnet Hok) as (m & _ & ->).
       by eexists. }
  destruct (json_body response) as [data|e] eqn:Hbody.
  2: { unfold_analyze. use_facts. by eexists. }
  destruct (analyze_text data) as [payload|e] eqn:Htext.
  2: { unfold_analyze. use_facts. by eexists. }
  destruct payload as [[| b | n | s | es | ms]|];
    try (unfold_analyze; use_facts; repeat case_match; simplify_eq/=;
         by eexists).
  destruct (decide (s = "")) as [->|Hs].
  { unfold_analyze. use_facts. by eexists. }
  rewrite (analyze_payload _ _ _ _ _ _ _ Hkey Hnet Hok Hbody Htext Hs).
  destruct (String_match s) as [matched|] eqn:Hmatch; [|by eexists].
  destruct (JSON_parse StringToNumber matched) as [v|] eqn:Hparse; [|by eexists].
  apply String_match_inv in Hmatch as (pre & mid & post & _ & _ & _ & ->).
  rewrite append_cons, append_nil_l in Hparse.
  apply JSON_parse_object in Hparse as (members & ->). by eexists.
Qed.

(** [handleAnalyze] does nothing at all, and sends nothing, when there is
    no source data or the target format is empty. *)
Lemma handleAnalyze_guard w source format :
  source = None ∨ format = "" →
  handleAnalyze w source format = ([], []).
Proof.
  intros [-> | ->]; [done|]. unfold handleAnalyze. by destruct source.
Qed.

(** X21.  Past its guard, [handleAnalyze] never reaches its [catch] block:
    no alert is shown and nothing is logged by it, whatever the network and
    the payload are.  It turns the analyzing flag on, stores what the
    resolved object has under [columnMapping] and under [suggestions]
    ([undefined] when the object lacks the property), and turns the flag
    off. *)
Theorem handleAnalyze_actions w data format :
  format ≠ "" →
  ∃ members,
    snd (analyzeExcelWithAI w (headers data) (rows data) format)
    = Resolved (JObject members) ∧
    handleAnalyze w (Some data) format
    = (fst (analyzeExcelWithAI w (headers data) (rows data) format),
       [SetAnalyzing true;
        SetColumnMapping (obj_get members "columnMapping");
        SetSuggestions (obj_get members "suggestions");
        SetAnalyzing false]).
Proof.
  intros Hformat.
  destruct (analyze_resolves_object w (headers data) (rows data) format)
    as (members & Hresolved).
  exists members. split; [done|].
  unfold handleAnalyze. rewrite bool_decide_eq_false_2 by done.
  destruct (analyzeExcelWithAI w (headers data) (rows data) format)
    as [events settled].
  simpl in Hresolved. by subst settled.
Qed.

(** X22.  When the analysis degrades, the handler stores the empty mapping
    and the one diagnostic; when the decoded object has no
    [columnMapping], the handler stores [undefined] as the mapping. *)
Theorem handleAnalyze_stored w data format :
  format ≠ "" →
  (∀ message,
      snd (analyzeExcelWithAI w (headers data) (rows data) format)
      = Resolved (degraded message) →
      snd (handleAnalyze w (Some data) format)
      = [SetAnalyzing true;
         SetColumnMapping (Some (JObject []));
         SetSuggestions (Some (JArray [JString message]));
         SetAnalyzing false]) ∧
  (∀ members,
      snd (analyzeExcelWithAI w (headers data) (rows data) format)
      = Resolved (JObject members) →
      obj_get members "columnMapping" = None →
      SetColumnMapping None ∈ snd (handleAnalyze w (Some data) format)).
Proof.
  intros Hformat. unfold handleAnalyze.
  rewrite bool_decide_eq_false_2 by done.
  destruct (analyzeExcelWithAI w (headers data) (rows data) format)
    as [events settled].
  simpl. split.
  - by intros message ->.
  - intros members -> Hnone. simpl. rewrite Hnone.
    apply elem_of_cons. right. apply elem_of_cons. by left.
Qed.

End HandlerFacts.

(** ** The properties at work on the sample data *)

#[local] Existing Instance literal_host.

(** The scenario of section 8: the second output column of the staff table
    is the second source column. *)
Lemma transformData_cells_staff :
  cell (transformData staff_table staff_mapping ["이름"; "팀"]) 0 1
  = Some (CStr "개발팀").
Proof.
  destruct (proj2 (transformData_cells staff_table staff_mapping ["이름"; "팀"])
              0%nat 1%nat [CStr "김철수"; CStr "개발팀"] "팀" eq_refl eq_refl)
    as (c & Hc & _ & _ & _ & Hfound).
  rewrite Hc. f_equal.
  apply (Hfound "부서" 1%nat); [by vm_compute|done|done|].
  intros [|k'] Hk'; [done|lia].
Defined.

(** An output header mapped to the empty string, on a table that has a
    column named by the empty string: the code gives null where the
    specification's wording gives the value of that column. *)
Lemma transformData_cells_blank_header :
  ({[ "t" := "" ]} : gmap string string) !! "t" = Some "" ∧
  headers blank_header_table !! 0%nat = Some "" ∧
  rows blank_header_table !! 0%nat = Some [CStr "x"; CStr "y"] ∧
  cell (transformData blank_header_table {[ "t" := "" ]} ["t"]) 0 0 = Some CNull ∧
  project_as_specified blank_header_table {[ "t" := "" ]} ["t"] = [[CStr "x"]] ∧
  rows (transformData blank_header_table {[ "t" := "" ]} ["t"])
  ≠ project_as_specified blank_header_table {[ "t" := "" ]} ["t"].
Proof. repeat split; try by vm_compute. Qed.

(** The whole scenario: one row, both columns renamed. *)
Fact transformData_staff :
  transformData staff_table staff_mapping ["이름"; "팀"]
  = {| headers := ["이름"; "팀"];
       rows := [[CStr "김철수"; CStr "개발팀"]];
       sheetName := "Sheet1" |}.
Proof. by vm_compute. Qed.

Lemma transformData_identity_staff :
  rows (transformData staff_table (identity_mapping (headers staff_table))
          (headers staff_table))
  = rows staff_table.
Proof.
  apply (transformData_identity staff_table);
    apply (bool_decide_unpack _); by vm_compute.
Defined.

(** The same header twice: both output columns read the first of the two
    source columns. *)
Lemma transformData_identity_twin_headers :
  rows (transformData twin_header_table
          (identity_mapping (headers twin_header_table))
          (headers twin_header_table))
  = [[CStr "1"; CStr "1"]] ∧
  rows (transformData twin_header_table
          (identity_mapping (headers twin_header_table))
          (headers twin_header_table))
  ≠ rows twin_header_table.
Proof. split; by vm_compute. Qed.

Lemma transformData_empty_source_name_blank_header :
  cell (transformData blank_header_table {[ "t" := "" ]} ["t"]) 0 0 = Some CNull.
Proof.
  assert (Hentry : ({[ "t" := "" ]} : gmap string string) !! "t" = Some "")
    by (by vm_compute).
  apply (proj2 (transformData_empty_source_name blank_header_table
                  {[ "t" := "" ]} ["t"] "t" Hentry)
           0%nat 0%nat [CStr "x"; CStr "y"]); reflexivity.
Defined.



Lemma analyze_extracts_prose_text :
  snd (@analyzeExcelWithAI literal_host
         (answering true (response_with_text prose_text)) ["a"] [] "b")
  = Resolved (JObject [("columnMapping", JObject [("Name", JString "성명")]);
                       ("suggestions", JArray [])]).
Proof.
  apply (proj2 (@analyze_extracts_outer_braces literal_host)
           (answering true (response_with_text prose_text)) ["a"] [] "b"
           {| ok := true; statusText := "status";
              json_body := Normal (response_with_text prose_text) |});
    reflexivity.
Defined.

Lemma analyze_prompt_ten_rows :
  ∃ request,
    Fetch request
    ∈ fst (@analyzeExcelWithAI literal_host
             (answering true (response_with_text prose_text))
             ["a"] ten_rows "b") ∧
    text request
    = analyze_prompt_head ++ "a" ++ analyze_prompt_sample
      ++ ("r1 | x" ++ newline ++ "r2 | x" ++ newline ++ "r3 | x")
      ++ analyze_prompt_target ++ "b" ++ analyze_prompt_tail.
Proof.
  apply (proj2 (proj2 (proj2 (proj2
           (@analyze_prompt_first_three_rows literal_host
              (answering true (response_with_text prose_text))
              ["a"] ten_rows "b"))))
           [CStr "r1"; CStr "x"] [CStr "r2"; CStr "x"] [CStr "r3"; CStr "x"]
           ((fun n => [CStr n; CStr "x"]) <$>
              ["r4"; "r5"; "r6"; "r7"; "r8"; "r9"; "r10"]));
    reflexivity.
Defined.


Lemma generateExcelTemplate_http_status_503 :
  @generateExcelTemplate literal_host (answering false JNull) "invoice"
  = ([Fetch (template_request (answering false JNull) (template_prompt "invoice"));
      ConsoleError "템플릿 생성 오류:"],
     Resolved empty_template).
Proof.
  apply (proj1 (@generateExcelTemplate_http_status literal_host
                  (answering false JNull) "invoice")
           {| ok := false; statusText := "status"; json_body := Normal JNull |});
    reflexivity.
Defined.

(** A non-success status does not reach the caller as a rejection. *)
Lemma generateExcelTemplate_http_status_not_rejected :
  snd (@generateExcelTemplate literal_host (answering false JNull) "invoice")
  = Resolved empty_template ∧
  ¬ ∃ e, snd (@generateExcelTemplate literal_host (answering false JNull) "invoice")
         = Rejected e.
Proof.
  split; [by vm_compute|]. intros [e He]. vm_compute in He. discriminate.
Qed.

(** ** The further properties at work on the sample data *)

#[local] Existing Instance accepting_library.

Lemma transformData_provenance_staff :
  @CStr string "개발팀" = CNull ∨ @CStr string "개발팀" = CUndefined
  ∨ @CStr string "개발팀" ∈ [CStr "김철수"; CStr "개발팀"].
Proof.
  apply (transformData_provenance staff_table staff_mapping ["이름"; "팀"]
           0%nat 1%nat); by vm_compute.
Defined.

Lemma transformData_mapping_frame_staff :
  transformData staff_table staff_mapping ["이름"; "팀"]
  = transformData staff_table (<["직급" := "부서"]> staff_mapping) ["이름"; "팀"].
Proof.
  apply transformData_mapping_frame. intros name Hname.
  apply list_elem_of_In in Hname. simpl in Hname.
  destruct Hname as [<-|[<-|[]]]; by vm_compute.
Defined.

Lemma transformData_compose_staff :
  transformData (transformData staff_table staff_mapping ["이름"; "팀"])
    {[ "Name" := "이름" ]} ["Name"]
  = transformData staff_table
      (compose_mapping {[ "Name" := "이름" ]} staff_mapping) ["Name"].
Proof.
  apply transformData_compose. intros name src Hname Hentry _.
  apply list_elem_of_In in Hname. simpl in Hname.
  destruct Hname as [<-|[]]. vm_compute in Hentry. injection Hentry as <-.
  apply list_elem_of_In. simpl. by left.
Defined.

Lemma transformData_reproject_staff :
  transformData (transformData staff_table staff_mapping ["이름"; "팀"])
    (identity_mapping ["이름"; "팀"]) ["이름"; "팀"]
  = transformData staff_table staff_mapping ["이름"; "팀"].
Proof.
  apply transformData_reproject; apply (bool_decide_unpack _); by vm_compute.
Defined.

Lemma String_match_spans_fenced :
  String_match "json: {}; done" = Some "{}".
Proof.
  apply (proj2 (String_match_spans "json: {}; done" "{}")).
  exists "json: ", "", "; done". by vm_compute.
Defined.

Lemma analyze_transport_diagnostic_offline :
  snd (analyzeExcelWithAI offline ["a"] [] "b")
  = Resolved (degraded ("AI 분석 중 오류: " ++ "Failed to fetch")).
Proof.
  apply (proj1 (analyze_transport_diagnostic offline ["a"] [] "b" eq_refl)
           (ErrorObject "Failed to fetch")).
  reflexivity.
Defined.

Lemma analyze_http_diagnostic_quota :
  snd (analyzeExcelWithAI (answering false quota_body) ["a"] [] "b")
  = Resolved (degraded ("API 오류: " ++ "quota exceeded")).
Proof.
  apply (proj1 (analyze_http_diagnostic (answering false quota_body)
                  ["a"] [] "b"
                  {| ok := false; statusText := "status";
                     json_body := Normal quota_body |}
                  quota_body eq_refl eq_refl eq_refl eq_refl)
           [("error", JObject [("message", JString "quota exceeded")])]
           [("message", JString "quota exceeded")] "quota exceeded");
    done.
Defined.

Lemma analyze_payload_diagnostic_no_braces :
  snd (analyzeExcelWithAI (answering true (response_with_text "no object"))
         ["a"] [] "b")
  = Resolved (degraded "AI 응답을 파싱할 수 없습니다.").
Proof.
  apply (proj1 (proj2 (proj2
           (analyze_payload_diagnostic
              (answering true (response_with_text "no object")) ["a"] [] "b"
              {| ok := true; statusText := "status";
                 json_body := Normal (response_with_text "no object") |}
              (response_with_text "no object")
              eq_refl eq_refl eq_refl eq_refl)))
           "no object"); [done|done|by left].
Defined.

Lemma analyze_wrapped_object_fenced :
  snd (analyzeExcelWithAI
         (answering true (response_with_text ("json: " ++ "{" ++ "" ++ "}" ++ "; done")))
         ["a"] [] "b")
  = Resolved (JObject []).
Proof.
  apply (analyze_wrapped_object
           (answering true (response_with_text ("json: " ++ "{" ++ "" ++ "}" ++ "; done")))
           ["a"] [] "b"
           {| ok := true; statusText := "status";
              json_body := Normal (response_with_text
                                     ("json: " ++ "{" ++ "" ++ "}" ++ "; done")) |}
           "json: " "" "; done"); reflexivity.
Defined.

Lemma generateExcelTemplate_outcomes_fenced :
  snd (generateExcelTemplate
         (answering true (response_with_text ("json: " ++ "{" ++ "" ++ "}" ++ "; done")))
         "invoice")
  = Resolved (JObject []).
Proof.
  apply (proj2 (generateExcelTemplate_outcomes
                  (answering true (response_with_text
                                     ("json: " ++ "{" ++ "" ++ "}" ++ "; done")))
                  "invoice")
           {| ok := true; statusText := "status";
              json_body := Normal (response_with_text
                                     ("json: " ++ "{" ++ "" ++ "}" ++ "; done")) |}
           "json: " "" "; done"); reflexivity.
Defined.

Lemma legacy_analyze_outcomes_offline :
  snd (legacy_analyzeExcelWithAI offline ["a"] [] "b")
  = Resolved (degraded "AI 분석 중 오류가 발생했습니다.").
Proof.
  destruct (legacy_analyze_outcomes offline ["a"] [] "b")
    as (_ & _ & Hnet & _).
  apply (Hnet (ErrorObject "Failed to fetch")). reflexivity.
Defined.

Lemma createExcelFile_written_staff :
  ∃ written, createExcelFile [staff_table] None = Normal written.
Proof.
  apply (proj2 (createExcelFile_written [staff_table] None)); reflexivity.
Defined.

Lemma parse_then_write_two_sheets :
  file_sheets {| file_name := "out.xlsx";
                 file_sheets :=
                   [("Staff", [[CStr "성명"; CStr "부서"];
                               [CStr "김철수"; CStr "개발팀"]]);
                    ("Empty", [[]])] |}
  = (fun sheet : string * SheetRows =>
       (sheet.1, match sheet.2 with
                 | Some _ => sheet_rows_array sheet.2
                 | None => [[]]
                 end)) <$> two_sheets.
Proof.
  apply (parse_then_write two_sheets (parse_sheet <$> two_sheets)
           (Some "out.xlsx")); reflexivity.
Defined.

Lemma processFile_outcomes_two_sheets :
  sourceData (fst (processFile ready_state (Loaded (Normal two_sheets))))
  = Some {| headers := ["성명"; "부서"];
            rows := [[CStr "김철수"; CStr "개발팀"]];
            sheetName := "Staff" |}.
Proof.
  rewrite (proj1 (processFile_outcomes ready_state (Loaded (Normal two_sheets)))
             ("Staff", Some (["성명"; "부서"], [[CStr "김철수"; CStr "개발팀"]]))
             [("Empty", None)] eq_refl).
  reflexivity.
Defined.

Lemma handleDownload_written_ready :
  ∃ source body,
    sourceData ready_state = Some source ∧
    file_name staff_download = "변환된_파일.xlsx" ∧
    file_sheets staff_download
    = [(sheetName source, (CStr <$> (columnMapping ready_state).*1) :: body)] ∧
    length body = length (rows source) ∧
    Forall (fun row => length row = length (columnMapping ready_state)) body.
Proof.
  apply (proj2 (handleDownload_written ready_state)). by vm_compute.
Defined.

Lemma handleDownload_columns_ready :
  ∃ sheet c,
    file_sheets staff_download = [("Sheet1", sheet)] ∧
    sheet !! 1%nat ≫= (fun r => r !! 1%nat) = Some c ∧
    (("부서" : string) = "" ∨ "부서" ∉ ["성명"; "부서"] → c = CNull) ∧
    (∀ k : nat,
        ("부서" : string) ≠ "" → ["성명"; "부서"] !! k = Some "부서" →
        (∀ k', (k' < k)%nat → ["성명"; "부서"] !! k' ≠ Some "부서") →
        c = default CUndefined ([CStr "김철수"; @CStr string "개발팀"] !! k)).
Proof.
  apply (handleDownload_columns ready_state staff_download staff_table
           0%nat 1%nat "팀" "부서" [CStr "김철수"; CStr "개발팀"]).
  - apply (bool_decide_unpack _). by vm_compute.
  - by vm_compute.
  - reflexivity.
  - reflexivity.
  - reflexivity.
Defined.

Lemma handleAnalyze_actions_offline :
  ∃ members,
    snd (@analyzeExcelWithAI literal_host offline (headers staff_table) (rows staff_table) "b")
    = Resolved (JObject members) ∧
    @handleAnalyze literal_host offline (Some staff_table) "b"
    = (fst (@analyzeExcelWithAI literal_host offline (headers staff_table) (rows staff_table) "b"),
       [SetAnalyzing true;
        SetColumnMapping (obj_get members "columnMapping");
        SetSuggestions (obj_get members "suggestions");
        SetAnalyzing false]).
Proof. apply (@handleAnalyze_actions literal_host offline staff_table "b"). discriminate. Defined.

Lemma handleAnalyze_stored_keyless :
  snd (@handleAnalyze literal_host keyless (Some staff_table) "b")
  = [SetAnalyzing true;
     SetColumnMapping (Some (JObject []));
     SetSuggestions (Some (JArray [JString "API 키가 설정되지 않았습니다."]));
     SetAnalyzing false].
Proof.
  apply (proj1 (@handleAnalyze_stored literal_host keyless staff_table "b" ltac:(discriminate))
           "API 키가 설정되지 않았습니다.").
  reflexivity.
Defined.

Lemma generateExcelTemplate_always_requests_keyless :
  url (@template_request literal_host keyless (template_prompt "invoice"))
  = endpoint ++ "undefined".
Proof.
  apply (proj2 (@generateExcelTemplate_always_requests literal_host keyless "invoice")).
  reflexivity.
Defined.
